(** * Sales report pipeline (main.py): a shallow embedding and its properties

    The program fetches rows from a database, builds a pandas DataFrame,
    coerces the column types ([correct_dtypes]), derives the month-to-date
    and year-to-date tables ([mtd_sales_per_dealer], [ytd_sales_per_dealer])
    and renders each into a report ([generate_pdf_report]).

    Conventions of the embedding.
    - A Python [str] is a Rocq [string], character for character.
    - An [int64] or Python [int] is a [Z]; a finite [float64] is the exact
      rational it denotes ([Q]); the missing value NaN is a constructor of
      its own.  Results of a vectorised division, which can be infinite or
      NaN, live in [float64].
    - A raised exception is the [Raise] constructor of [result].
    - [datetime.now()] reads the clock; each call site receives its own
      reading as an argument, in call order.
    - What pandas does inside [to_datetime], [to_numeric], [groupby],
      [sum] and [round] is written out as the functions of the same name;
      the text parsers and the float printer those rely on are the fields
      of the class [Library]. *)

From Stdlib Require Import ZArith QArith Qround Qreduction.
From Stdlib Require Import List String Ascii Bool Lia Lqa DecimalString.
Import ListNotations.

Local Open Scope Z_scope.

(** ** Exceptions and results *)

Inductive exn : Type :=
| KeyError (k : string)
| TypeError
| ValueError
| AttributeError
| ZeroDivisionError.

Inductive result (A : Type) : Type :=
| Ok (a : A)
| Raise (e : exn).

Arguments Ok {A} a.
Arguments Raise {A} e.

Definition bind {A B : Type} (m : result A) (k : A -> result B) : result B :=
  match m with
  | Ok a => k a
  | Raise e => Raise e
  end.

Notation "x <- m ;; k" := (bind m (fun x => k))
  (at level 61, m at next level, right associativity).

Fixpoint mapM {A B : Type} (f : A -> result B) (l : list A) : result (list B) :=
  match l with
  | [] => Ok []
  | a :: l' => b <- f a ;; bs <- mapM f l' ;; Ok (b :: bs)
  end.

Definition is_raise {A : Type} (m : result A) : bool :=
  match m with
  | Ok _ => false
  | Raise _ => true
  end.

(** ** datetime *)

Record datetime : Type := mkdatetime {
  year : Z;
  month : Z;
  day : Z;
  hour : Z;
  minute : Z;
  second : Z;
  microsecond : Z
}.

Definition dt_fields (d : datetime) : list Z :=
  [year d; month d; day d; hour d; minute d; second d; microsecond d].

(** Chronological order of naive datetimes is the lexicographic order of
    their fields. *)
Fixpoint lex_leb (a b : list Z) : bool :=
  match a, b with
  | [], _ => true
  | _ :: _, [] => false
  | x :: a', y :: b' => (x <? y) || ((x =? y) && lex_leb a' b')
  end.

Definition dt_leb (a b : datetime) : bool := lex_leb (dt_fields a) (dt_fields b).

(** [d.replace(day=n)] *)
Definition replace_day (d : datetime) (n : Z) : datetime :=
  mkdatetime (year d) (month d) n (hour d) (minute d) (second d) (microsecond d).

(** ** Cell values *)

Inductive value : Type :=
| VNone
| VNaN
| VInt (n : Z)
| VFloat (x : Q)
| VStr (s : string)
| VDatetime (d : datetime)
| VNaT.

(** [pd.isna] / [pd.notna] on a scalar. *)
Definition isna (v : value) : bool :=
  match v with
  | VNone | VNaN | VNaT => true
  | _ => false
  end.

Definition notna (v : value) : bool := negb (isna v).

(** The number a numeric cell denotes. *)
Definition as_number (v : value) : option Q :=
  match v with
  | VInt n => Some (inject_Z n)
  | VFloat x => Some x
  | _ => None
  end.

Definition is_numeric (v : value) : bool :=
  match v with
  | VInt _ | VFloat _ | VNaN => true
  | _ => false
  end.

Definition is_int (v : value) : bool :=
  match v with
  | VInt _ => true
  | _ => false
  end.

(** A numeric column has one dtype: when every cell is an integer it is
    int64, otherwise the integers are stored as floats. *)
Definition int_to_float (v : value) : value :=
  match v with
  | VInt n => VFloat (inject_Z n)
  | _ => v
  end.

Definition unify_numeric (l : list value) : list value :=
  if forallb is_numeric l && negb (forallb is_int l)
  then map int_to_float l
  else l.

(** ** Rounding *)

(** Round half to even, as [numpy.rint] and Python's [round] do. *)
Definition round_half_even (x : Q) : Z :=
  let f := Qfloor x in
  match (x - inject_Z f ?= 1 # 2)%Q with
  | Lt => f
  | Gt => f + 1
  | Eq => if Z.even f then f else f + 1
  end.

(** [round(x, 2)] on a finite float. *)
Definition round2 (x : Q) : Q :=
  (inject_Z (round_half_even (x * 100)) / 100)%Q.

(** Results of a vectorised float division. *)
Inductive float64 : Type :=
| Fin (x : Q)
| PosInf
| NegInf
| NaN.

(** numpy true division of two finite numbers: never raises. *)
Definition np_truediv (a b : Q) : float64 :=
  if Qeq_bool b 0 then
    match (a ?= 0)%Q with
    | Eq => NaN
    | Gt => PosInf
    | Lt => NegInf
    end
  else Fin (a / b)%Q.

Definition np_mul100 (x : float64) : float64 :=
  match x with
  | Fin q => Fin (q * 100)%Q
  | _ => x
  end.

(** [Series.round(2)] *)
Definition np_round2 (x : float64) : float64 :=
  match x with
  | Fin q => Fin (round2 q)
  | _ => x
  end.

(** ** Text *)

Definition str_of_Z (n : Z) : string := NilZero.string_of_int (Z.to_int n).

(** Zero-padded decimal of a non-negative number, at least [w] digits. *)
Fixpoint zeros (k : nat) : string :=
  match k with
  | O => EmptyString
  | S k' => String "0"%char (zeros k')
  end.

Definition pad (w : nat) (n : Z) : string :=
  let s := str_of_Z n in
  String.append (zeros (w - String.length s)) s.

(** [str(Timestamp)] *)
Definition str_of_datetime (d : datetime) : string :=
  let date := String.append (pad 4 (year d))
              (String.append "-" (String.append (pad 2 (month d))
              (String.append "-" (pad 2 (day d))))) in
  let time := String.append (pad 2 (hour d))
              (String.append ":" (String.append (pad 2 (minute d))
              (String.append ":" (pad 2 (second d))))) in
  let frac := if microsecond d =? 0 then EmptyString
              else String.append "." (pad 6 (microsecond d)) in
  String.append date (String.append " " (String.append time frac)).

(** ** Library functions taken as given

    [parse_number] is how [pd.to_numeric] reads one string ([None]: it
    cannot); [strptime_dmy] is how [pd.to_datetime] reads one string under
    the format [%d/%m/%Y]; [float_repr] is [str] of a finite float;
    [downcast_float] is what [downcast='float'] makes of an already
    converted column. *)

Inductive number : Type :=
| NumInt (n : Z)
| NumFloat (x : Q)
| NumNaN.

Definition value_of_number (n : number) : value :=
  match n with
  | NumInt z => VInt z
  | NumFloat x => VFloat x
  | NumNaN => VNaN
  end.

Class Library : Type := {
  parse_number : string -> option number;
  strptime_dmy : string -> option datetime;
  float_repr : Q -> string;
  downcast_float : list value -> list value
}.

(** *** A reference instance, for running the model on examples *)

Definition digit_of (c : ascii) : option Z :=
  let n := Z.of_nat (nat_of_ascii c) in
  if (48 <=? n) && (n <=? 57) then Some (n - 48) else None.

Fixpoint digits_value (acc : Z) (s : string) : option Z :=
  match s with
  | EmptyString => Some acc
  | String c s' =>
      match digit_of c with
      | Some d => digits_value (10 * acc + d) s'
      | None => None
      end
  end.

Definition parse_uint (s : string) : option Z :=
  match s with
  | EmptyString => None
  | _ => digits_value 0 s
  end.

Fixpoint split_on (sep : ascii) (s : string) : list string :=
  match s with
  | EmptyString => [EmptyString]
  | String c s' =>
      if Ascii.eqb c sep then EmptyString :: split_on sep s'
      else match split_on sep s' with
           | h :: t => String c h :: t
           | [] => [String c EmptyString]
           end
  end.

Definition is_leap (y : Z) : bool :=
  ((y mod 4 =? 0) && negb (y mod 100 =? 0)) || (y mod 400 =? 0).

Definition days_in_month (y m : Z) : Z :=
  if m =? 2 then (if is_leap y then 29 else 28)
  else if (m =? 4) || (m =? 6) || (m =? 9) || (m =? 11) then 30
  else 31.

Definition ref_strptime_dmy (s : string) : option datetime :=
  match split_on "/"%char s with
  | [sd; sm; sy] =>
      match parse_uint sd, parse_uint sm, parse_uint sy with
      | Some d, Some m, Some y =>
          if (Nat.leb (String.length sd) 2) && (Nat.leb (String.length sm) 2)
             && (Nat.eqb (String.length sy) 4)
             && (1 <=? m) && (m <=? 12) && (1 <=? d) && (d <=? days_in_month y m)
          then Some (mkdatetime y m d 0 0 0 0)
          else None
      | _, _, _ => None
      end
  | _ => None
  end.

Definition ref_parse_unsigned (s : string) : option number :=
  match split_on "."%char s with
  | [si] =>
      match parse_uint si with
      | Some i => Some (NumInt i)
      | None => None
      end
  | [si; sf] =>
      match parse_uint si, digits_value 0 sf with
      | Some i, Some f =>
          let k := 10 ^ Z.of_nat (String.length sf) in
          Some (NumFloat (Qred (Qmake (i * k + f) (Z.to_pos k))))
      | _, _ => None
      end
  | _ => None
  end.

Definition negate_number (n : number) : number :=
  match n with
  | NumInt z => NumInt (- z)
  | NumFloat x => NumFloat (- x)
  | NumNaN => NumNaN
  end.

Definition ref_parse_number (s : string) : option number :=
  match s with
  | String "-"%char s' =>
      match ref_parse_unsigned s' with
      | Some n => Some (negate_number n)
      | None => None
      end
  | String "+"%char s' => ref_parse_unsigned s'
  | _ => ref_parse_unsigned s
  end.

(** Decimal expansion of a fraction [r / d] with [0 <= r < d], at most
    [fuel] digits.  The reference printer writes a float as its exact
    decimal expansion, cut after 17 fractional digits. *)
Fixpoint frac_digits (fuel : nat) (r d : Z) : string :=
  match fuel with
  | O => EmptyString
  | S fuel' =>
      let q := (10 * r) / d in
      let r' := (10 * r) mod d in
      String.append (str_of_Z q)
        (if r' =? 0 then EmptyString else frac_digits fuel' r' d)
  end.

Definition ref_float_repr (x : Q) : string :=
  let n := Z.abs (Qnum x) in
  let d := Zpos (Qden x) in
  String.append (if Qnum x <? 0 then "-" else EmptyString)
    (String.append (str_of_Z (n / d))
       (String.append "." (frac_digits 17 (n mod d) d))).

Definition reference_library : Library := {|
  parse_number := ref_parse_number;
  strptime_dmy := ref_strptime_dmy;
  float_repr := ref_float_repr;
  downcast_float := fun l => l
|}.

(** ** DataFrames

    A row is the dict the database layer builds ([dict(zip(column_names,
    row))]); a frame is its column index and its rows. *)

Definition row : Type := list (string * value).

Record DataFrame : Type := mkDataFrame {
  columns : list string;
  rows : list row
}.

Fixpoint get (c : string) (r : row) : value :=
  match r with
  | [] => VNaN
  | (k, v) :: r' => if String.eqb k c then v else get c r'
  end.

Fixpoint set (c : string) (v : value) (r : row) : row :=
  match r with
  | [] => [(c, v)]
  | (k, w) :: r' => if String.eqb k c then (k, v) :: r' else (k, w) :: set c v r'
  end.

Fixpoint remove_key (c : string) (r : row) : row :=
  match r with
  | [] => []
  | (k, w) :: r' => if String.eqb k c then remove_key c r' else (k, w) :: remove_key c r'
  end.

Definition has_column (df : DataFrame) (c : string) : bool :=
  existsb (String.eqb c) (columns df).

(** [df[c]] *)
Definition getitem (df : DataFrame) (c : string) : result (list value) :=
  if has_column df c then Ok (map (get c) (rows df)) else Raise (KeyError c).

(** [df[c] = vals] *)
Definition setitem (df : DataFrame) (c : string) (vals : list value) : DataFrame :=
  {| columns := if has_column df c then columns df else columns df ++ [c];
     rows := map (fun rv => set c (snd rv) (fst rv)) (combine (rows df) vals) |}.

(** [df[cols]]: the first name that is not a column raises [KeyError]. *)
Definition select_columns (df : DataFrame) (cols : list string) : result DataFrame :=
  match find (fun c => negb (has_column df c)) cols with
  | Some c => Raise (KeyError c)
  | None =>
      Ok {| columns := cols;
            rows := map (fun r => map (fun c => (c, get c r)) cols) (rows df) |}
  end.

(** [df.drop(columns=[c])] *)
Definition drop (df : DataFrame) (c : string) : result DataFrame :=
  if has_column df c
  then Ok {| columns := filter (fun k => negb (String.eqb k c)) (columns df);
             rows := map (remove_key c) (rows df) |}
  else Raise (KeyError c).

(** [df[mask]] *)
Fixpoint boolean_index (rs : list row) (mask : list bool) : list row :=
  match rs, mask with
  | r :: rs', b :: mask' =>
      if b then r :: boolean_index rs' mask' else boolean_index rs' mask'
  | _, _ => []
  end.

(** [pd.DataFrame.from_dict(all_data)] on a list of dicts: the columns are
    the keys in order of first appearance, a key a dict lacks reads NaN.
    (pandas also infers a dtype per column here; [correct_dtypes] redoes
    that for every column, so the inference is not written out.) *)
Fixpoint union_keys (seen : list string) (data : list row) : list string :=
  match data with
  | [] => seen
  | d :: data' =>
      union_keys
        (fold_left (fun acc kv =>
                      if existsb (String.eqb (fst kv)) acc then acc else acc ++ [fst kv])
                   d seen)
        data'
  end.

Definition from_dict (data : list row) : DataFrame :=
  let cols := union_keys [] data in
  {| columns := cols;
     rows := map (fun d => map (fun c => (c, get c d)) cols) data |}.

(** ** Grouping keys *)

Inductive key : Type :=
| KNum (q : Q)
| KStr (s : string)
| KDate (d : datetime).

(** The key a cell groups under; missing values have none ([groupby]'s
    default [dropna=True]).  Numbers are reduced so that equal numbers are
    equal keys. *)
Definition key_of (v : value) : option key :=
  match v with
  | VInt n => Some (KNum (inject_Z n))
  | VFloat x => Some (KNum (Qred x))
  | VStr s => Some (KStr s)
  | VDatetime d => Some (KDate d)
  | VNone | VNaN | VNaT => None
  end.

Fixpoint list_Z_eqb (a b : list Z) : bool :=
  match a, b with
  | [], [] => true
  | x :: a', y :: b' => (x =? y) && list_Z_eqb a' b'
  | _, _ => false
  end.

Definition key_eqb (a b : key) : bool :=
  match a, b with
  | KNum x, KNum y => (Qnum x =? Qnum y) && Pos.eqb (Qden x) (Qden y)
  | KStr s, KStr t => String.eqb s t
  | KDate d, KDate e => list_Z_eqb (dt_fields d) (dt_fields e)
  | _, _ => false
  end.

Definition key_rank (a : key) : Z :=
  match a with
  | KNum _ => 0
  | KStr _ => 1
  | KDate _ => 2
  end.

Definition key_leb (a b : key) : bool :=
  match a, b with
  | KNum x, KNum y => Qle_bool x y
  | KStr s, KStr t => String.leb s t
  | KDate d, KDate e => dt_leb d e
  | _, _ => key_rank a <=? key_rank b
  end.

Fixpoint dedup (l : list key) : list key :=
  match l with
  | [] => []
  | k :: l' => if existsb (key_eqb k) l' then dedup l' else k :: dedup l'
  end.

Fixpoint insert_key (k : key) (l : list key) : list key :=
  match l with
  | [] => [k]
  | h :: t => if key_leb k h then k :: l else h :: insert_key k t
  end.

Definition sort_keys (l : list key) : list key := fold_right insert_key [] l.

Fixpoint present_keys (vals : list value) : list key :=
  match vals with
  | [] => []
  | v :: vals' =>
      match key_of v with
      | Some k => k :: present_keys vals'
      | None => present_keys vals'
      end
  end.

Definition in_group (c : string) (k : key) (r : row) : bool :=
  match key_of (get c r) with
  | Some k' => key_eqb k' k
  | None => false
  end.

(** The keys of the groups: the distinct keys present, sorted. *)
Definition group_keys (col : list value) : list key :=
  sort_keys (dedup (present_keys col)).

(** [df.groupby(c)]: one group per distinct key present, in sorted key
    order, each holding its rows in table order. *)
Definition groupby (df : DataFrame) (c : string) : result (list (key * list row)) :=
  col <- getitem df c ;;
  Ok (map (fun k => (k, filter (in_group c k) (rows df))) (group_keys col)).

(** ** Sums *)

Fixpoint sumQ (l : list Q) : Q :=
  match l with
  | [] => 0%Q
  | x :: l' => (x + sumQ l')%Q
  end.

(** What a cell adds to a sum: missing values are skipped, text and dates
    cannot be summed and rounded. *)
Definition summand (v : value) : result Q :=
  match v with
  | VInt n => Ok (inject_Z n)
  | VFloat x => Ok x
  | VNaN | VNone => Ok 0%Q
  | VStr _ | VDatetime _ | VNaT => Raise TypeError
  end.

Definition col_sum (c : string) (rs : list row) : result Q :=
  xs <- mapM summand (map (get c) rs) ;;
  Ok (sumQ xs).

(** ** The program *)

Section Program.

Context {L : Library}.

(** [str(v)] *)
Definition py_str (v : value) : string :=
  match v with
  | VNone => "None"
  | VNaN => "nan"
  | VInt n => str_of_Z n
  | VFloat x => float_repr x
  | VStr s => s
  | VDatetime d => str_of_datetime d
  | VNaT => "NaT"
  end.

(** [col.astype(str)] *)
Definition astype_str (col : list value) : list value :=
  map (fun v => VStr (py_str v)) col.

(** *** mtd_sales_per_dealer, ytd_sales_per_dealer *)

(** One cell of [(col >= start_of_month) & (col <= current_date)]: NaT
    compares false, a cell that is not a date cannot be compared. *)
Definition mtd_cell (start_of_month current_date : datetime) (v : value) : result bool :=
  match v with
  | VDatetime d => Ok (dt_leb start_of_month d && dt_leb d current_date)
  | VNaT => Ok false
  | _ => Raise TypeError
  end.

Definition mtd_sales_per_dealer (df : DataFrame) (now : datetime) : result DataFrame :=
  let current_date := now in
  let start_of_month := replace_day current_date 1 in
  col <- getitem df "delivery_date" ;;
  mask <- mapM (mtd_cell start_of_month current_date) col ;;
  let mtd_df := {| columns := columns df; rows := boolean_index (rows df) mask |} in
  drop mtd_df "delivery_date".

(** One cell of [col.dt.year == current_year]: the year of NaT is NaN,
    [.dt] exists on date columns only. *)
Definition ytd_cell (current_year : Z) (v : value) : result bool :=
  match v with
  | VDatetime d => Ok (year d =? current_year)
  | VNaT => Ok false
  | _ => Raise AttributeError
  end.

Definition ytd_sales_per_dealer (df : DataFrame) (now : datetime) : result DataFrame :=
  let current_year := year now in
  col <- getitem df "delivery_date" ;;
  mask <- mapM (ytd_cell current_year) col ;;
  let ytd_df := {| columns := columns df; rows := boolean_index (rows df) mask |} in
  drop ytd_df "delivery_date".

(** *** correct_dtypes *)

(** One cell of [pd.to_datetime(col, format='%d/%m/%Y', errors='coerce')]:
    a date stays, a missing value is NaT, anything else is read as text
    under the format and is NaT when that fails. *)
Definition to_datetime_cell (v : value) : value :=
  match v with
  | VDatetime d => VDatetime d
  | VNone | VNaN | VNaT => VNaT
  | VStr _ | VInt _ | VFloat _ =>
      match strptime_dmy (py_str v) with
      | Some d => VDatetime d
      | None => VNaT
      end
  end.

Definition to_datetime_coerce (col : list value) : result (list value) :=
  Ok (map to_datetime_cell col).

Inductive downcast : Type :=
| Integer
| Float.

(** One cell of the conversion inside [pd.to_numeric(col, errors='raise')]
    on an object column: numbers stay, a missing value is NaN, text is
    parsed or raises [ValueError], a date is an invalid object. *)
Definition convert_numeric_cell (v : value) : result value :=
  match v with
  | VInt n => Ok (VInt n)
  | VFloat x => Ok (VFloat x)
  | VNaN | VNone => Ok VNaN
  | VStr s =>
      match parse_number s with
      | Some n => Ok (value_of_number n)
      | None => Raise ValueError
      end
  | VDatetime _ | VNaT => Raise TypeError
  end.

Definition maybe_convert_numeric (col : list value) : result (list value) :=
  vals <- mapM convert_numeric_cell col ;;
  Ok (unify_numeric vals).

Definition is_integral (v : value) : bool :=
  match v with
  | VInt _ => true
  | VFloat x => Qeq_bool x (inject_Z (Qfloor x))
  | _ => false
  end.

Definition to_int (v : value) : value :=
  match v with
  | VFloat x => VInt (Qfloor x)
  | _ => v
  end.

(** The downcast step runs after the conversion and leaves the column as
    it is when the narrower type cannot hold it. *)
Definition apply_downcast (d : downcast) (vals : list value) : list value :=
  match d with
  | Integer => if forallb is_integral vals then map to_int vals else vals
  | Float => downcast_float vals
  end.

Definition to_numeric (col : list value) (d : downcast) : result (list value) :=
  vals <- maybe_convert_numeric col ;;
  Ok (apply_downcast d vals).

(** The body of the loop of [correct_dtypes], for one column. *)
Definition correct_column (column : string) (col : list value) : list value :=
  if String.eqb column "delivery_date" then
    match to_datetime_coerce col with
    | Ok v => v
    | Raise _ => astype_str col
    end
  else
    match to_numeric col Integer with
    | Ok v => v
    | Raise _ =>
        match to_numeric col Float with
        | Ok v => v
        | Raise _ => astype_str col
        end
    end.

(** One turn of the loop: [df[column] = ...]. *)
Definition correct_step (df : DataFrame) (column : string) : DataFrame :=
  match getitem df column with
  | Ok col => setitem df column (correct_column column col)
  | Raise _ => df
  end.

Definition correct_dtypes (df : DataFrame) : DataFrame :=
  fold_left correct_step (columns df) df.

(** *** truncate_text *)

(** [text[:n]] *)
Definition slice_to (s : string) (n : Z) : string :=
  if 0 <=? n then substring 0 (Z.to_nat n) s
  else substring 0 (String.length s - Z.to_nat (- n)) s.

Definition truncate_text (text : value) (max_len : Z) : value :=
  match text with
  | VStr s =>
      if Z.of_nat (String.length s) >? max_len
      then VStr (String.append (slice_to s max_len) "...")
      else text
  | _ => text
  end.

(** *** generate_pdf_report *)

Record AggRow : Type := mkAggRow {
  agg_key : key;
  quantity : Q;
  turnover : Z;
  margin : Z;
  margin_percent : float64
}.

Record Totals : Type := mkTotals {
  total_turnover : Z;
  total_margin : Z;
  avg_margin : Q
}.

Record Report : Type := mkReport {
  pdf_file_name : string;
  summary_table : list AggRow;
  totals : Totals;
  dealer_summary_table : list AggRow;
  dealer_tables : list (key * list (list value))
}.

(** [.agg({... : 'sum'})] on the groups: per group, the three sums. *)
Record GroupSums : Type := mkGroupSums {
  gs_key : key;
  gs_quantity : Q;
  gs_turnover : Q;
  gs_margin : Q
}.

Definition agg_group (g : key * list row) : result GroupSums :=
  q <- col_sum "quantity_register_uom" (snd g) ;;
  t <- col_sum "total_final_price_czk" (snd g) ;;
  m <- col_sum "gross_margin_czk" (snd g) ;;
  Ok (mkGroupSums (fst g) q t m).

Definition require_columns (df : DataFrame) (cols : list string) : result unit :=
  match find (fun c => negb (has_column df c)) cols with
  | Some c => Raise (KeyError c)
  | None => Ok tt
  end.

Definition agg_sums (df : DataFrame) (by_col : string) : result (list GroupSums) :=
  groups <- groupby df by_col ;;
  _ <- require_columns df
         ["quantity_register_uom"; "total_final_price_czk"; "gross_margin_czk"]%string ;;
  mapM agg_group groups.

(** [(margin / turnover * 100).round(2)] on one row *)
Definition margin_percent_of (margin turnover : Q) : float64 :=
  np_round2 (np_mul100 (np_truediv margin turnover)).

(** Summary by product group: the sums are rounded and cast first, the
    percentage is computed from the columns as they then are. *)
Definition summary_row (s : GroupSums) : AggRow :=
  let total_final_price_czk := round_half_even (gs_turnover s) in
  let gross_margin_czk := round_half_even (gs_margin s) in
  mkAggRow (gs_key s) (gs_quantity s) total_final_price_czk gross_margin_czk
    (margin_percent_of (inject_Z gross_margin_czk) (inject_Z total_final_price_czk)).

Definition summary_df (df : DataFrame) : result (list AggRow) :=
  sums <- agg_sums df "nomen_group_parent" ;;
  Ok (map summary_row sums).

(** Summary by dealer: the percentage is computed first, the sums are
    rounded and cast after. *)
Definition dealer_summary_row (s : GroupSums) : AggRow :=
  let margin_percent := margin_percent_of (gs_margin s) (gs_turnover s) in
  mkAggRow (gs_key s) (gs_quantity s)
    (round_half_even (gs_turnover s)) (round_half_even (gs_margin s))
    margin_percent.

Definition dealer_summary_df (df : DataFrame) : result (list AggRow) :=
  sums <- agg_sums df "dealer_name" ;;
  Ok (map dealer_summary_row sums).

(** The report-level totals. *)
Definition compute_totals (df : DataFrame) : result Totals :=
  _ <- require_columns df ["total_final_price_czk"]%string ;;
  t <- col_sum "total_final_price_czk" (rows df) ;;
  _ <- require_columns df ["gross_margin_czk"]%string ;;
  m <- col_sum "gross_margin_czk" (rows df) ;;
  let total_turnover := round_half_even t in
  let total_margin := round_half_even m in
  let avg_margin :=
    if negb (total_turnover =? 0)
    then (inject_Z total_margin / inject_Z total_turnover * 100)%Q
    else 0%Q in
  Ok (mkTotals total_turnover total_margin avg_margin).

(** Python arithmetic on two cells. *)
Definition py_ne_zero (v : value) : bool :=
  match v with
  | VInt n => negb (n =? 0)
  | VFloat x => negb (Qeq_bool x 0)
  | _ => true
  end.

Definition py_truediv (a b : value) : result value :=
  match a, b with
  | (VInt _ | VFloat _ | VNaN), (VInt _ | VFloat _) =>
      match as_number a, as_number b with
      | Some x, Some y =>
          if Qeq_bool y 0 then Raise ZeroDivisionError else Ok (VFloat (x / y)%Q)
      | None, Some y =>
          if Qeq_bool y 0 then Raise ZeroDivisionError else Ok VNaN
      | _, None => Raise TypeError
      end
  | (VInt _ | VFloat _ | VNaN), VNaN => Ok VNaN
  | _, _ => Raise TypeError
  end.

(** [round(v, 2)] *)
Definition py_round2 (v : value) : result value :=
  match v with
  | VFloat x => Ok (VFloat (round2 x))
  | VInt n => Ok (VInt n)
  | VNaN => Ok VNaN
  | _ => Raise TypeError
  end.

(** The lambda applied to each row of a dealer's table. *)
Definition container (r : row) : result value :=
  let q := get "quantity_register_uom" r in
  let p := get "pcs_container" r in
  if notna q && notna p && py_ne_zero p
  then x <- py_truediv q p ;; py_round2 x
  else Ok (VInt 0).

Definition detail_columns : list string :=
  ["nomenclature"; "brand"; "total_power_mw"; "container";
   "quantity_register_uom"; "total_final_price_czk"; "gross_margin_czk"]%string.

Definition detail_header : list value :=
  [VStr "Nomenclature"; VStr "Brand"; VStr "Total Power (MW)"; VStr "Container";
   VStr "Quantity"; VStr "Turnover"; VStr "Margin"].

Definition max_lengths : list Z := [20; 20; 10; 10; 10; 15; 10].

(** [frame.values.tolist()]: a frame of numbers only has one numeric
    dtype; any other cell makes it an object array whose cells keep their
    own type. *)
Definition values_tolist (cells : list (list value)) : list (list value) :=
  if forallb is_numeric (List.concat cells) && negb (forallb is_int (List.concat cells))
  then map (map int_to_float) cells
  else cells.

(** One row of the rendered detail table. *)
Definition render_row (r : list value) : list value :=
  map (fun im => truncate_text (VStr (py_str (fst im))) (snd im))
      (combine r max_lengths).

Definition dealer_table (df : DataFrame) (g : key * list row) : result (key * list (list value)) :=
  let dealer_data := snd g in
  _ <- require_columns df ["quantity_register_uom"; "pcs_container"]%string ;;
  conts <- mapM container dealer_data ;;
  let dealer_data :=
    map (fun rc => set "container" (snd rc) (fst rc))
        (combine dealer_data (unify_numeric conts)) in
  _ <- require_columns
         {| columns := columns df ++ ["container"%string]; rows := dealer_data |}
         detail_columns ;;
  let dealer_table_data :=
    detail_header ::
    values_tolist (map (fun r => map (fun c => get c r) detail_columns) dealer_data) in
  Ok (fst g, map render_row dealer_table_data).

(** The report, as the data it is built from, in the order the function
    computes it: the summary by product group, the totals, the summary by
    dealer, one detail table per dealer.  The fixed texts, the styles and
    the page layout add no data and are left out; the file is written by
    the last statement, so a run that raises before it writes nothing. *)
Definition generate_pdf_report (df : DataFrame) (report_type : string) : result Report :=
  let pdf_file_name := String.append report_type "_Sales_Report.pdf" in
  summary <- summary_df df ;;
  tot <- compute_totals df ;;
  dealer_summary <- dealer_summary_df df ;;
  groups <- groupby df "dealer_name" ;;
  tables <- mapM (dealer_table df) groups ;;
  Ok (mkReport pdf_file_name summary tot dealer_summary tables).

(** *** main *)

Definition columns_to_keep : list string :=
  ["dealer_name"; "nomenclature"; "brand"; "total_power_mw";
   "pcs_container"; "nomen_group_parent"; "quantity_register_uom";
   "register_uom"; "total_final_price_czk"; "gross_margin_czk"; "delivery_date"]%string.

(** [str(x).encode('utf-8').decode('utf-8') if isinstance(x, str) else x] *)
Definition reencode (x : value) : value :=
  match x with
  | VStr s => VStr (py_str (VStr s))
  | _ => x
  end.

(** Everything [main] does with the fetched rows before it renders: the
    two window tables, year-to-date first. *)
Definition prepare (all_data : list row) (now_ytd now_mtd : datetime)
  : result (DataFrame * DataFrame) :=
  let df := from_dict all_data in
  names <- getitem df "dealer_name" ;;
  let df := setitem df "dealer_name" (map reencode names) in
  let df := correct_dtypes df in
  filtered_df <- select_columns df columns_to_keep ;;
  ytd_df <- ytd_sales_per_dealer filtered_df now_ytd ;;
  mtd_df <- mtd_sales_per_dealer filtered_df now_mtd ;;
  Ok (ytd_df, mtd_df).

(** [main], from the point where the rows have been fetched.  The result
    is the list of files written, with their content, and how the run
    ended.  [now_ytd] and [now_mtd] are the clock readings of the two
    filters. *)
Definition main (all_data : list row) (now_ytd now_mtd : datetime)
  : list Report * result unit :=
  match prepare all_data now_ytd now_mtd with
  | Raise e => ([], Raise e)
  | Ok (ytd_df, mtd_df) =>
      match generate_pdf_report mtd_df "MTD" with
      | Raise e => ([], Raise e)
      | Ok mtd_report =>
          match generate_pdf_report ytd_df "YTD" with
          | Raise e => ([mtd_report], Raise e)
          | Ok ytd_report => ([mtd_report; ytd_report], Ok tt)
          end
      end
  end.

End Program.

(** ** Definitions used to state the properties *)

(** A cell of a date-typed column. *)
Definition is_date_cell (v : value) : bool :=
  match v with
  | VDatetime _ | VNaT => true
  | _ => false
  end.





(** ** Example data *)

(** A fetched row, as the database layer hands it over. *)
Definition sales_record (dealer group quantity pcs price gross date : value) : row :=
  [("dealer_name", dealer); ("nomenclature", VStr "PV panel 450W");
   ("brand", VStr "Helios"); ("total_power_mw", VFloat (9 # 20));
   ("pcs_container", pcs); ("nomen_group_parent", group);
   ("quantity_register_uom", quantity); ("register_uom", VStr "pcs");
   ("total_final_price_czk", price); ("gross_margin_czk", gross);
   ("delivery_date", date)]%string.

(** A clock reading on 25 February 2024, 10:00. *)
Definition feb_25_2024 : datetime := mkdatetime 2024 2 25 10 0 0 0.

(** The two rows of the specification's example scenario. *)
Definition scenario_rows : list row :=
  [sales_record (VStr "Acme") (VStr "Pumps") (VInt 10) (VInt 5) (VInt 1000) (VInt 200)
     (VStr "15/01/2024");
   sales_record (VStr "Acme") (VStr "Pumps") (VInt 5) (VInt 5) (VInt 500) (VInt 50)
     (VStr "20/02/2024")].

(** The frame of the scenario, as [pd.DataFrame.from_dict] builds it. *)
Definition scenario_frame : DataFrame := from_dict scenario_rows.

(** The columns of a window table: the kept columns without the date. *)
Definition window_columns : list string :=
  filter (fun c => negb (String.eqb c "delivery_date")) columns_to_keep.

Definition window_table (rs : list row) : DataFrame :=
  {| columns := window_columns; rows := map (remove_key "delivery_date") rs |}.


(** One dealer, one line: turnover 3.75, margin 1.25. *)
Definition quarter_rows : list row :=
  [sales_record (VStr "Acme") (VStr "Pumps") (VInt 3) (VInt 5) (VFloat (15 # 4))
     (VFloat (5 # 4)) (VStr "15/02/2024")].


(** One dealer, one line given away: turnover 0, margin -5. *)
Definition zero_turnover_rows : list row :=
  [sales_record (VStr "Acme") (VStr "Pumps") (VInt 1) (VInt 5) (VInt 0) (VInt (-5))
     (VStr "15/02/2024")].


(** A line delivered on 1 January 2025, and two clock readings ten
    microseconds apart around that midnight. *)
Definition new_year_rows : list row :=
  [sales_record (VStr "Acme") (VStr "Pumps") (VInt 10) (VInt 5) (VInt 1000) (VInt 200)
     (VStr "01/01/2025")].

Definition before_midnight : datetime := mkdatetime 2024 12 31 23 59 59 999990.

Definition at_midnight : datetime := mkdatetime 2025 1 1 0 0 0 0.

(** A line with an eleven-digit quantity. *)
Definition large_quantity_rows : list row :=
  [sales_record (VStr "Acme") (VStr "Pumps") (VInt 12345678901) (VInt 5) (VInt 1000)
     (VInt 200) (VStr "15/02/2024")].


(** The typed tables of the examples, under the reference instance. *)
Definition typed (data : list row) : DataFrame :=
  correct_dtypes (L := reference_library) (from_dict data).

(** A detail row whose first cell is longer than its column allows. *)
Definition long_name_cells : list value :=
  [VStr "PV panel 450W monocrystalline"; VStr "Helios"; VFloat (9 # 20);
   VFloat 2; VInt 10; VInt 1000; VInt 200].

(** ** The run around the pipeline: credentials, query files, database

    The functions above the pipeline act on what lies outside the program:
    the credentials file, the directory of the query files, the database
    and the log.  The outside is a state [W] and a record of the calls
    the program makes on it, each returning the new state and either an
    error of the outside ([E]) or a value; what the program itself
    produces (log lines, seconds slept, reports written) is kept in
    [Effects].  A log line is kept as the values its message is
    formatted from. *)

(** What [json.load] returns. *)
#[local] Unset Elimination Schemes.
Inductive json : Type :=
| JNull
| JBool (b : bool)
| JNumber (x : Q)
| JString (s : string)
| JArray (l : list json)
| JObject (m : list (string * json)).
#[local] Set Elimination Schemes.

(** Truth value of a loaded value, as [if not credentials] tests it. *)
Definition truthy (j : json) : bool :=
  match j with
  | JNull => false
  | JBool b => b
  | JNumber x => negb (Qeq_bool x 0)
  | JString s => negb (String.eqb s "")
  | JArray l => negb (Nat.eqb (List.length l) 0)
  | JObject m => negb (Nat.eqb (List.length m) 0)
  end.

(** [m.get(k)] on a loaded object. *)
Fixpoint json_get (k : string) (m : list (string * json)) : option json :=
  match m with
  | [] => None
  | (k', v) :: m' => if String.eqb k' k then Some v else json_get k m'
  end.

(** What can be raised during a run. *)
Inductive raised (E : Type) : Type :=
| PyExn (e : exn)
| EnvError (e : E)
| UnboundLocalError (name : string).

Arguments PyExn {E} e.
Arguments EnvError {E} e.
Arguments UnboundLocalError {E} name.

Inductive log_entry (E : Type) : Type :=
| Info_current_directory
| Error_no_credentials
| Error_read_credentials (e : raised E)
| Info_query_files (queries : list string)
| Info_processing (query_file : string)
| Warning_attempt (n : nat) (e : raised E).

Arguments Info_current_directory {E}.
Arguments Error_no_credentials {E}.
Arguments Error_read_credentials {E} e.
Arguments Info_query_files {E} queries.
Arguments Info_processing {E} query_file.
Arguments Warning_attempt {E} n e.

Record Effects (E : Type) : Type := mkEffects {
  log : list (log_entry E);
  slept : Z;
  written : list Report
}.

Arguments mkEffects {E} log slept written.
Arguments log {E} e.
Arguments slept {E} e.
Arguments written {E} e.

(** The calls on the outside. *)
Record Environment (W Conn E : Type) : Type := mkEnvironment {
  load_json : W -> W * (E + json);
  os_listdir : W -> W * (E + list string);
  read_text : string -> W -> W * (E + string);
  pyodbc_connect : string -> W -> W * (E + Conn);
  cursor_fetch : Conn -> string -> W -> W * (E + (list string * list (list value)));
  conn_close : Conn -> W -> W * (E + unit);
  str_json : json -> string
}.

Arguments load_json {W Conn E} e.
Arguments os_listdir {W Conn E} e.
Arguments read_text {W Conn E} e.
Arguments pyodbc_connect {W Conn E} e.
Arguments cursor_fetch {W Conn E} e.
Arguments conn_close {W Conn E} e.
Arguments str_json {W Conn E} e.

(** [dict(pairs)]: a later pair replaces the value of an earlier pair
    with the same key, at the place of the earlier one. *)
Definition py_dict (pairs : list (string * value)) : row :=
  fold_left (fun d kv => set (fst kv) (snd kv) d) pairs [].

(** [s.endswith(suffix)] *)
Definition ends_with (suffix s : string) : bool :=
  Nat.leb (String.length suffix) (String.length s) &&
  String.eqb (substring (String.length s - String.length suffix)
                        (String.length suffix) s) suffix.

(** The test of [get_query_files] on one file name. *)
Definition is_query_file (file : string) : bool :=
  prefix "query" file && ends_with ".txt" file.

Definition max_attempts : nat := 3.

Section Run.

Context {L : Library}.
Variables W Conn E : Type.
Variable env : Environment W Conn E.

(** A step of the run: from the outside and the effects so far to the
    new ones, and an exception or a value. *)
Definition M (A : Type) : Type :=
  W * Effects E -> (W * Effects E) * (raised E + A).

Definition ret {A : Type} (a : A) : M A := fun s => (s, inr a).

Definition raise {A : Type} (e : raised E) : M A := fun s => (s, inl e).

Definition bindM {A B : Type} (m : M A) (k : A -> M B) : M B :=
  fun s =>
    match m s with
    | (s', inr a) => k a s'
    | (s', inl e) => (s', inl e)
    end.

(** [try: m except Exception as e: handler e] *)
Definition try_except {A : Type} (m : M A) (handler : raised E -> M A) : M A :=
  fun s =>
    match m s with
    | (s', inl e) => handler e s'
    | (s', inr a) => (s', inr a)
    end.

(** A call that acts on the outside only. *)
Definition world_op {A : Type} (f : W -> W * (raised E + A)) : M A :=
  fun s =>
    match f (fst s) with
    | (w', r) => ((w', snd s), r)
    end.

(** A call on the environment. *)
Definition call {A : Type} (f : W -> W * (E + A)) : M A :=
  world_op (fun w =>
              match f w with
              | (w', inl e) => (w', inl (EnvError e))
              | (w', inr a) => (w', inr a)
              end).

Definition logging (entry : log_entry E) : M unit :=
  fun s =>
    ((fst s, mkEffects (log (snd s) ++ [entry]) (slept (snd s)) (written (snd s))),
     inr tt).

Definition sleep (seconds : Z) : M unit :=
  fun s =>
    ((fst s, mkEffects (log (snd s)) (slept (snd s) + seconds) (written (snd s))),
     inr tt).

Definition write_reports (reports : list Report) : M unit :=
  fun s =>
    ((fst s, mkEffects (log (snd s)) (slept (snd s)) (written (snd s) ++ reports)),
     inr tt).

(** *** retry *)

(** The loop of [wrapped] over the attempts that are left. *)
Fixpoint retry_loop {A : Type} (operation : M A) (attempts : list nat) : M (option A) :=
  match attempts with
  | [] => ret None
  | attempt :: rest =>
      try_except
        (bindM operation (fun a => ret (Some a)))
        (fun e =>
           bindM (logging (Warning_attempt (attempt + 1) e)) (fun _ =>
           bindM (sleep 20) (fun _ =>
           retry_loop operation rest)))
  end.

Definition retry {A : Type} (operation : M A) : M (option A) :=
  retry_loop operation (seq 0 max_attempts).

(** *** connect_to_database *)

Definition conn_str (driver server_name database_name username password : string)
  : string :=
  String.append "DRIVER=" (String.append driver (String.append ";SERVER="
  (String.append server_name (String.append ";DATABASE="
  (String.append database_name (String.append ";UID="
  (String.append username (String.append ";PWD="
  (String.append password ";TrustServerCertificate=yes;"))))))))).

Definition connect_to_database (driver server_name database_name username password : json)
  : M (option Conn) :=
  retry (call (pyodbc_connect env
                 (conn_str (str_json env driver) (str_json env server_name)
                           (str_json env database_name) (str_json env username)
                           (str_json env password)))).

(** *** execute_query *)

(** The body that [retry] wraps: the cursor's column names and rows,
    zipped into one dict per row. *)
Definition execute_query_body (conn : Conn) (query : string) : M (list row) :=
  bindM (call (cursor_fetch env conn query)) (fun res =>
  let column_names := fst res in
  let rows := snd res in
  ret (map (fun row => py_dict (combine column_names row)) rows)).

Definition execute_query (conn : Conn) (query : string) : M (option (list row)) :=
  retry (execute_query_body conn query).

(** *** get_database_credentials *)

Definition get_database_credentials : M (option json) :=
  try_except
    (bindM (call (load_json env)) (fun all_credentials =>
     match all_credentials with
     | JObject m =>
         match json_get "database" m with
         | None | Some JNull =>
             bindM (logging Error_no_credentials) (fun _ => ret None)
         | Some credentials => ret (Some credentials)
         end
     | _ => raise (PyExn AttributeError)
     end))
    (fun e => bindM (logging (Error_read_credentials e)) (fun _ => ret None)).

(** *** get_query_files *)

Definition get_query_files : M (list string) :=
  bindM (call (os_listdir env)) (fun files => ret (filter is_query_file files)).

(** *** process_queries *)

(** [if data: all_data.extend(data)] *)
Definition extend_if (all_data : list row) (data : option (list row)) : list row :=
  match data with
  | Some (r :: rs) => all_data ++ r :: rs
  | _ => all_data
  end.

Fixpoint process_loop (conn : Conn) (queries : list string) (all_data : list row)
  : M (list row) :=
  match queries with
  | [] => ret all_data
  | query_file :: rest =>
      bindM (logging (Info_processing query_file)) (fun _ =>
      bindM (call (read_text env query_file)) (fun sql_query =>
      bindM (execute_query conn sql_query) (fun data =>
      process_loop conn rest (extend_if all_data data))))
  end.

Definition process_queries (conn : Conn) (queries : list string) : M (list row) :=
  process_loop conn queries [].

(** *** main, from its first statement *)

(** [credentials[k]] *)
Definition subscript (credentials : json) (k : string) : M json :=
  match credentials with
  | JObject m =>
      match json_get k m with
      | Some v => ret v
      | None => raise (PyExn (KeyError k))
      end
  | _ => raise (PyExn TypeError)
  end.

(** The whole of [main].  [all_data] is bound only when the connection
    was made; [main] above is its part from the fetched rows on. *)
Definition main_program (now_ytd now_mtd : datetime) : M unit :=
  bindM (logging Info_current_directory) (fun _ =>
  bindM get_database_credentials (fun credentials =>
  match credentials with
  | None => ret tt
  | Some credentials =>
      if negb (truthy credentials) then ret tt
      else
        bindM get_query_files (fun queries =>
        bindM (logging (Info_query_files queries)) (fun _ =>
        bindM (subscript credentials "driver") (fun driver =>
        bindM (subscript credentials "server") (fun server =>
        bindM (subscript credentials "database") (fun database =>
        bindM (subscript credentials "username") (fun username =>
        bindM (subscript credentials "password") (fun password =>
        bindM (connect_to_database driver server database username password)
              (fun conn =>
        bindM (match conn with
               | Some c =>
                   bindM (process_queries c queries) (fun all_data =>
                   bindM (call (conn_close env c)) (fun _ =>
                   ret (Some all_data)))
               | None => ret None
               end) (fun all_data =>
        match all_data with
        | None => raise (UnboundLocalError "all_data")
        | Some all_data =>
            bindM (write_reports (fst (main all_data now_ytd now_mtd))) (fun _ =>
            match snd (main all_data now_ytd now_mtd) with
            | Ok _ => ret tt
            | Raise e => raise (PyExn e)
            end)
        end)))))))))
  end)).

End Run.

Arguments ret {W E A} _ _.
Arguments raise {W E A} _ _.
Arguments bindM {W E A B} _ _ _.
Arguments try_except {W E A} _ _ _.
Arguments world_op {W E A} _ _.
Arguments call {W E A} _ _.
Arguments logging {W E} _ _.
Arguments sleep {W E} _ _.
Arguments write_reports {W E} _ _.
Arguments retry_loop {W E A} _ _ _.
Arguments retry {W E A} _ _.
Arguments connect_to_database {W Conn E} _ _ _ _ _ _ _.
Arguments execute_query_body {W Conn E} _ _ _ _.
Arguments execute_query {W Conn E} _ _ _ _.
Arguments get_database_credentials {W Conn E} _ _.
Arguments get_query_files {W Conn E} _ _.
Arguments process_loop {W Conn E} _ _ _ _ _.
Arguments process_queries {W Conn E} _ _ _ _.
Arguments subscript {W E} _ _ _.
Arguments main_program {L W Conn E} _ _ _ _.

(** ** Further definitions used to state properties *)

(** What up to [k] calls of an operation on the outside come to: the
    outside after them, the errors of the calls that failed, in order,
    and the value of the first call that succeeded, if one did. *)
Fixpoint first_success {W E A : Type} (op : W -> W * (raised E + A)) (k : nat) (w : W)
  : W * list (raised E) * option A :=
  match k with
  | O => (w, [], None)
  | S k' =>
      match op w with
      | (w', inr a) => (w', [], Some a)
      | (w', inl e) =>
          match first_success op k' w' with
          | (w'', es, r) => (w'', e :: es, r)
          end
      end
  end.

(** The warnings of failed attempts, numbered from [first]. *)
Fixpoint warnings {E : Type} (first : nat) (es : list (raised E)) : list (log_entry E) :=
  match es with
  | [] => []
  | e :: es' => Warning_attempt first e :: warnings (S first) es'
  end.

(** The operation that [execute_query] retries, as a call on the outside. *)
Definition fetch_records {W Conn E : Type} (env : Environment W Conn E)
           (conn : Conn) (query : string) (w : W) : W * (raised E + list row) :=
  match cursor_fetch env conn query w with
  | (w', inl e) => (w', inl (EnvError e))
  | (w', inr res) =>
      (w', inr (map (fun row => py_dict (combine (fst res) row)) (snd res)))
  end.

(** The operation that [connect_to_database] retries, as a call on the
    outside. *)
Definition open_connection {W Conn E : Type} (env : Environment W Conn E)
           (s : string) (w : W) : W * (raised E + Conn) :=
  match pyodbc_connect env s w with
  | (w', inl e) => (w', inl (EnvError e))
  | (w', inr c) => (w', inr c)
  end.

(** A credentials file with the five entries [main] reads. *)
Definition sample_credentials : json :=
  JObject [("database"%string,
            JObject [("driver"%string, JString "ODBC Driver 18 for SQL Server");
                     ("server"%string, JString "db.example");
                     ("database"%string, JString "sales");
                     ("username"%string, JString "reporting");
                     ("password"%string, JString "secret")])].

(** An outside with that credentials file and two query files, in which
    the database refuses every connection. *)
Definition unreachable_database : Environment unit unit string := {|
  load_json := fun w => (w, inr sample_credentials);
  os_listdir := fun w => (w, inr ["query1.txt"; "notes.md"; "query2.txt"]%string);
  read_text := fun _ w => (w, inr "SELECT 1"%string);
  pyodbc_connect := fun _ w => (w, inl "connection refused"%string);
  cursor_fetch := fun _ _ w => (w, inl "no connection"%string);
  conn_close := fun _ w => (w, inr tt);
  str_json := fun j => match j with JString s => s | _ => EmptyString end
|}.

(** The same outside with a database that accepts the connection and
    fails every query. *)
Definition failing_queries : Environment unit unit string := {|
  load_json := fun w => (w, inr sample_credentials);
  os_listdir := fun w => (w, inr ["query1.txt"; "notes.md"; "query2.txt"]%string);
  read_text := fun _ w => (w, inr "SELECT 1"%string);
  pyodbc_connect := fun _ w => (w, inr tt);
  cursor_fetch := fun _ _ w => (w, inl "syntax error"%string);
  conn_close := fun _ w => (w, inr tt);
  str_json := fun j => match j with JString s => s | _ => EmptyString end
|}.

(** An outside without a credentials file. *)
Definition no_credentials_file : Environment unit unit string := {|
  load_json := fun w => (w, inl "No such file"%string);
  os_listdir := fun w => (w, inr ["query1.txt"]%string);
  read_text := fun _ w => (w, inr "SELECT 1"%string);
  pyodbc_connect := fun _ w => (w, inr tt);
  cursor_fetch := fun _ _ w => (w, inl "syntax error"%string);
  conn_close := fun _ w => (w, inr tt);
  str_json := fun j => match j with JString s => s | _ => EmptyString end
|}.

(** The start of a run: nothing logged, slept or written. *)
Definition fresh {E : Type} : Effects E := mkEffects [] 0 [].

(** A cell of a float column. *)
Definition is_float_cell (v : value) : bool :=
  match v with
  | VFloat _ | VNaN => true
  | _ => false
  end.

(** A cell of a text column. *)
Definition is_str_cell (v : value) : bool :=
  match v with
  | VStr _ => true
  | _ => false
  end.

(** A column of one resolved type: integers, floats, text or dates. *)
Definition homogeneous (col : list value) : bool :=
  forallb is_int col || forallb is_float_cell col ||
  forallb is_str_cell col || forallb is_date_cell col.

(** The month-to-date window on a date, read at [now]. *)
Definition in_mtd_window (now : datetime) (r : row) : bool :=
  match get "delivery_date" r with
  | VDatetime d => dt_leb (replace_day now 1) d && dt_leb d now
  | _ => false
  end.

(** The year-to-date window on a date, read at [now]. *)
Definition in_ytd_window (now : datetime) (r : row) : bool :=
  match get "delivery_date" r with
  | VDatetime d => year d =? year now
  | _ => false
  end.

(** A clock reading that is not exactly midnight. *)
Definition past_midnight (now : datetime) : Prop :=
  0 <= hour now /\ 0 <= minute now /\ 0 <= second now /\ 0 <= microsecond now /\
  0 < hour now + minute now + second now + microsecond now.

(** Midnight of a day. *)
Definition midnight (y m d : Z) : datetime := mkdatetime y m d 0 0 0 0.

(** The keys of a dict. *)
Definition keys (r : row) : list string := map fst r.

(** One step of collecting the keys of a dict into the columns seen so
    far, as [union_keys] does it. *)
Definition add_key (acc : list string) (kv : string * value) : list string :=
  if existsb (String.eqb (fst kv)) acc then acc else acc ++ [fst kv].

(** The columns the report generator groups by or sums. *)
Definition aggregated_columns : list string :=
  ["nomen_group_parent"; "quantity_register_uom"; "total_final_price_czk";
   "gross_margin_czk"; "dealer_name"]%string.

(** * Properties *)

(** ** Results and [mapM] *)

Lemma bind_Ok_inv {A B : Type} (m : result A) (k : A -> result B) (b : B) :
  bind m k = Ok b -> exists a, m = Ok a /\ k a = Ok b.
Proof.
  destruct m as [a|e]; simpl; [|discriminate]. intros H. now exists a.
Qed.

(** [step H as x Hx]: from [H : (x <- m ;; k) = Ok b], the value [x] of [m],
    [Hx : m = Ok x], and [H : k x = Ok b]. *)
Tactic Notation "step" hyp(H) "as" simple_intropattern(x) ident(Hx) :=
  apply bind_Ok_inv in H as [x [Hx H]].

Lemma mapM_Forall2 {A B : Type} (f : A -> result B) (l : list A) (out : list B) :
  mapM f l = Ok out -> Forall2 (fun a b => f a = Ok b) l out.
Proof.
  revert out; induction l as [|a l IH]; intros out H; simpl in H.
  - injection H as <-. constructor.
  - destruct (f a) as [b|e] eqn:Hfa; simpl in H; [|discriminate].
    destruct (mapM f l) as [bs|e] eqn:Hl; simpl in H; [|discriminate].
    injection H as <-. constructor; auto.
Qed.

Lemma mapM_total {A B : Type} (f : A -> result B) (l : list A) :
  (forall a, In a l -> exists b, f a = Ok b) -> exists out, mapM f l = Ok out.
Proof.
  induction l as [|a l IH]; intros H; simpl.
  - eexists; reflexivity.
  - destruct (H a (or_introl eq_refl)) as [b ->].
    destruct IH as [bs ->]; [intros; apply H; now right|].
    simpl. eexists; reflexivity.
Qed.


(** ** Keys *)
















Lemma groupby_spec (df : DataFrame) (c : string) (groups : list (key * list row)) :
  groupby df c = Ok groups ->
  groups = map (fun k => (k, filter (in_group c k) (rows df)))
               (group_keys (map (get c) (rows df))).
Proof.
  unfold groupby, getitem. destruct (has_column df c); simpl; [|discriminate].
  intros H. injection H as <-. reflexivity.
Qed.

(** ** Type coercion *)

Section Coercion.

Context {L : Library}.

Lemma to_datetime_cell_is_date (v : value) : is_date_cell (to_datetime_cell v) = true.
Proof.
  destruct v; simpl; try reflexivity; now destruct (strptime_dmy _).
Qed.

Lemma to_numeric_raises_alike (col : list value) (d : downcast) :
  match maybe_convert_numeric col with
  | Ok vals => to_numeric col d = Ok (apply_downcast d vals)
  | Raise e => to_numeric col d = Raise e
  end.
Proof.
  unfold to_numeric. now destruct (maybe_convert_numeric col).
Qed.

Lemma correct_column_resolved (column : string) (col : list value) :
  correct_column column col =
    if String.eqb column "delivery_date" then map to_datetime_cell col
    else match to_numeric col Integer with
         | Ok v => v
         | Raise _ => astype_str col
         end.
Proof.
  pose proof (to_numeric_raises_alike col Integer) as HI.
  pose proof (to_numeric_raises_alike col Float) as HF.
  unfold correct_column.
  destruct (maybe_convert_numeric col) as [vals|e]; rewrite HI; try rewrite HF;
    reflexivity.
Qed.


(** The conversions keep the length of the column. *)
Lemma mapM_length {A B : Type} (f : A -> result B) (l : list A) (out : list B) :
  mapM f l = Ok out -> List.length out = List.length l.
Proof.
  intros H. apply mapM_Forall2 in H. symmetry. eapply Forall2_length; eauto.
Qed.

Lemma unify_numeric_length (l : list value) :
  List.length (unify_numeric l) = List.length l.
Proof.
  unfold unify_numeric.
  destruct (forallb is_numeric l && negb (forallb is_int l));
    [apply length_map|reflexivity].
Qed.

Lemma correct_column_length (column : string) (col : list value) :
  List.length (correct_column column col) = List.length col.
Proof.
  rewrite correct_column_resolved.
  destruct (String.eqb column "delivery_date"); [apply length_map|].
  unfold to_numeric, maybe_convert_numeric, astype_str.
  destruct (mapM convert_numeric_cell col) as [vals|e] eqn:Hm; simpl.
  - apply mapM_length in Hm. rewrite <- Hm, <- (unify_numeric_length vals).
    destruct (forallb is_integral (unify_numeric vals));
      [apply length_map|reflexivity].
  - apply length_map.
Qed.

(** *** The loop of [correct_dtypes] *)

Lemma get_set_same (c : string) (v : value) (r : row) : get c (set c v r) = v.
Proof.
  induction r as [|[k w] r IH]; simpl.
  - now rewrite String.eqb_refl.
  - destruct (String.eqb k c) eqn:E; simpl; rewrite E; [reflexivity|exact IH].
Qed.

Lemma get_set_other (c c' : string) (v : value) (r : row) :
  c' <> c -> get c' (set c v r) = get c' r.
Proof.
  intros Hne. induction r as [|[k w] r IH]; simpl.
  - destruct (String.eqb c c') eqn:E; [|reflexivity].
    apply String.eqb_eq in E. congruence.
  - destruct (String.eqb k c) eqn:E; simpl.
    + apply String.eqb_eq in E. subst k.
      destruct (String.eqb c c') eqn:E'; [|reflexivity].
      apply String.eqb_eq in E'. congruence.
    + now rewrite IH.
Qed.

Lemma setitem_column_same (df : DataFrame) (c : string) (vals : list value) :
  List.length vals = List.length (rows df) ->
  map (get c) (rows (setitem df c vals)) = vals.
Proof.
  unfold setitem; simpl. generalize (rows df) as rs.
  induction vals as [|v vals IH]; intros [|r rs] Hlen; simpl in *;
    try reflexivity; try discriminate.
  rewrite get_set_same. f_equal. apply IH. lia.
Qed.

Lemma setitem_column_other (df : DataFrame) (c c' : string) (vals : list value) :
  List.length vals = List.length (rows df) -> c' <> c ->
  map (get c') (rows (setitem df c vals)) = map (get c') (rows df).
Proof.
  intros Hlen Hne. unfold setitem; simpl. revert Hlen. generalize (rows df) as rs.
  induction vals as [|v vals IH]; intros [|r rs] Hlen; simpl in *;
    try reflexivity; try discriminate.
  rewrite get_set_other by assumption. f_equal. apply IH. lia.
Qed.

Lemma correct_step_columns (df : DataFrame) (c : string) :
  columns (correct_step df c) = columns df.
Proof.
  unfold correct_step, getitem. destruct (has_column df c) eqn:E; [|reflexivity].
  unfold setitem; simpl. now rewrite E.
Qed.

Lemma correct_step_column (df : DataFrame) (c c' : string) :
  has_column df c = true ->
  map (get c') (rows (correct_step df c)) =
    if String.eqb c' c then correct_column c (map (get c) (rows df))
    else map (get c') (rows df).
Proof.
  intros Hc. unfold correct_step, getitem. rewrite Hc.
  assert (Hlen : List.length (correct_column c (map (get c) (rows df)))
                 = List.length (rows df))
    by (rewrite correct_column_length; apply length_map).
  destruct (String.eqb c' c) eqn:E.
  - apply String.eqb_eq in E. subst c'. now apply setitem_column_same.
  - apply String.eqb_neq in E. now apply setitem_column_other.
Qed.

Lemma correct_fold_column (cs : list string) (df : DataFrame) (c : string) :
  NoDup cs -> (forall x, In x cs -> has_column df x = true) ->
  map (get c) (rows (fold_left correct_step cs df)) =
    if existsb (String.eqb c) cs then correct_column c (map (get c) (rows df))
    else map (get c) (rows df).
Proof.
  revert df. induction cs as [|a cs IH]; intros df Hnd Hall; simpl; [reflexivity|].
  inversion Hnd as [|? ? Ha Hnd']; subst.
  assert (Hall' : forall x, In x cs -> has_column (correct_step df a) x = true).
  { intros x Hx. unfold has_column. rewrite correct_step_columns.
    apply Hall. now right. }
  rewrite (IH _ Hnd' Hall'), (correct_step_column df a c) by (apply Hall; now left).
  destruct (String.eqb c a) eqn:E; simpl; [|reflexivity].
  apply String.eqb_eq in E. subst a.
  destruct (existsb (String.eqb c) cs) eqn:Ex; [|reflexivity].
  exfalso. apply Ha. apply existsb_exists in Ex as [x [Hx Hcx]].
  apply String.eqb_eq in Hcx. now subst.
Qed.

Lemma correct_dtypes_columns (df : DataFrame) :
  columns (correct_dtypes df) = columns df.
Proof.
  unfold correct_dtypes.
  generalize (columns df) at 1 as cs. intros cs. revert df.
  induction cs as [|a cs IH]; intros df; simpl; [reflexivity|].
  now rewrite IH, correct_step_columns.
Qed.

Lemma correct_dtypes_getitem (df : DataFrame) (c : string) :
  NoDup (columns df) -> has_column df c = true ->
  getitem (correct_dtypes df) c = Ok (correct_column c (map (get c) (rows df))).
Proof.
  intros Hnd Hc. unfold getitem, has_column. rewrite correct_dtypes_columns.
  fold (has_column df c). rewrite Hc. f_equal.
  unfold correct_dtypes.
  rewrite correct_fold_column; [now (unfold has_column in Hc; rewrite Hc)|assumption|].
  intros x Hx. unfold has_column. apply existsb_exists. exists x.
  split; [assumption|apply String.eqb_refl].
Qed.


End Coercion.

(** ** Window filters *)

Lemma mtd_window_same_year (now d : datetime) :
  dt_leb (replace_day now 1) d = true -> dt_leb d now = true -> year d = year now.
Proof.
  unfold dt_leb, dt_fields, replace_day; simpl. intros H1 H2.
  apply orb_true_iff in H1. apply orb_true_iff in H2.
  assert (year now <= year d).
  { destruct H1 as [H1|H1]; [apply Z.ltb_lt in H1; lia|].
    apply andb_true_iff in H1 as [H1 _]. apply Z.eqb_eq in H1. lia. }
  assert (year d <= year now).
  { destruct H2 as [H2|H2]; [apply Z.ltb_lt in H2; lia|].
    apply andb_true_iff in H2 as [H2 _]. apply Z.eqb_eq in H2. lia. }
  lia.
Qed.

Lemma boolean_index_In (f : value -> result bool) (c : string) (r : row)
      (rs : list row) (mask : list bool) :
  mapM f (map (get c) rs) = Ok mask ->
  (In r (boolean_index rs mask) <-> In r rs /\ f (get c r) = Ok true).
Proof.
  revert mask. induction rs as [|r0 rs IH]; intros mask H; simpl in H.
  - injection H as <-. simpl. tauto.
  - destruct (f (get c r0)) as [b|e] eqn:Hb; simpl in H; [|discriminate].
    destruct (mapM f (map (get c) rs)) as [bs|e] eqn:Hm; simpl in H; [|discriminate].
    injection H as <-. specialize (IH bs eq_refl). simpl.
    destruct b; simpl; rewrite IH; split.
    + intros [->|[Hin Hf]]; auto.
    + intros [[->|Hin] Hf]; auto.
    + intros [Hin Hf]; auto.
    + intros [[->|Hin] Hf]; [congruence|auto].
Qed.

Lemma date_column_masks (f : value -> result bool) (c : string) (rs : list row) :
  (forall v, is_date_cell v = true -> exists b, f v = Ok b) ->
  forallb (fun r => is_date_cell (get c r)) rs = true ->
  exists mask, mapM f (map (get c) rs) = Ok mask.
Proof.
  intros Hf Hall. apply mapM_total. intros v Hv.
  apply in_map_iff in Hv as [r [<- Hr]]. apply Hf.
  rewrite forallb_forall in Hall. now apply Hall.
Qed.

Lemma mtd_cell_total (s n : datetime) (v : value) :
  is_date_cell v = true -> exists b, mtd_cell s n v = Ok b.
Proof. destruct v; simpl; try discriminate; intros _; eexists; reflexivity. Qed.

Lemma ytd_cell_total (y : Z) (v : value) :
  is_date_cell v = true -> exists b, ytd_cell y v = Ok b.
Proof. destruct v; simpl; try discriminate; intros _; eexists; reflexivity. Qed.

Lemma mtd_cell_implies_ytd_cell (now_ytd now_mtd : datetime) (v : value) :
  year now_ytd = year now_mtd ->
  mtd_cell (replace_day now_mtd 1) now_mtd v = Ok true ->
  ytd_cell (year now_ytd) v = Ok true.
Proof.
  intros Hy. destruct v; simpl; try discriminate. intros H. injection H as H.
  apply andb_true_iff in H as [H1 H2].
  rewrite (mtd_window_same_year now_mtd d H1 H2), Hy, Z.eqb_refl. reflexivity.
Qed.

(** C3, as the code has it: each filter reads the clock itself, the
    year-to-date filter first.  On a table whose date column is
    date-typed both filters return, and when the two readings fall in the
    same calendar year every month-to-date record is a year-to-date
    record. *)
Theorem mtd_subset_ytd_same_year (df : DataFrame) (now_ytd now_mtd : datetime) :
  has_column df "delivery_date" = true ->
  forallb (fun r => is_date_cell (get "delivery_date" r)) (rows df) = true ->
  year now_ytd = year now_mtd ->
  exists ytd_df mtd_df,
    ytd_sales_per_dealer df now_ytd = Ok ytd_df /\
    mtd_sales_per_dealer df now_mtd = Ok mtd_df /\
    incl (rows mtd_df) (rows ytd_df).
Proof.
  intros Hc Hdates Hy.
  destruct (date_column_masks (ytd_cell (year now_ytd)) "delivery_date" (rows df)
              (ytd_cell_total _) Hdates) as [my Hmy].
  destruct (date_column_masks (mtd_cell (replace_day now_mtd 1) now_mtd)
              "delivery_date" (rows df) (mtd_cell_total _ _) Hdates) as [mm Hmm].
  unfold ytd_sales_per_dealer, mtd_sales_per_dealer, getitem, drop, has_column in *.
  rewrite Hc. cbn [bind]. rewrite Hmy, Hmm. cbn [bind columns]. rewrite Hc.
  eexists; eexists. split; [reflexivity|]. split; [reflexivity|].
  cbn [rows]. intros r' Hr'. apply in_map_iff in Hr' as [r [<- Hr]].
  apply in_map. apply (boolean_index_In _ _ r _ _ Hmm) in Hr as [Hin Ht].
  apply (boolean_index_In _ _ r _ _ Hmy). split; [assumption|].
  now apply (mtd_cell_implies_ytd_cell now_ytd now_mtd).
Qed.

(** ** The container column *)





(** ** Rendering the detail tables *)

Lemma substring_0_length (n : nat) (s : string) :
  (n <= String.length s)%nat -> String.length (substring 0 n s) = n.
Proof.
  revert s. induction n as [|n IH]; intros s Hn.
  - now destruct s.
  - destruct s as [|c s]; simpl in *; [lia|]. f_equal. apply IH. lia.
Qed.

Lemma substring_0_prefix (n : nat) (s : string) : prefix (substring 0 n s) s = true.
Proof.
  revert s. induction n as [|n IH]; intros s.
  - now destruct s.
  - destruct s as [|c s]; simpl; [reflexivity|].
    destruct (ascii_dec c c) as [_|Hne]; [apply IH|now elim Hne].
Qed.

Lemma nth_error_combine {A B : Type} (l : list A) (l' : list B) (i : nat) (a : A) (b : B) :
  nth_error l i = Some a -> nth_error l' i = Some b ->
  nth_error (combine l l') i = Some (a, b).
Proof.
  revert l l'. induction i as [|i IH]; intros [|x l] [|y l'] Ha Hb; simpl in *;
    try discriminate.
  - congruence.
  - now apply IH.
Qed.

Section Rendering.

Context {L : Library}.

(** C5, as the code has it: every cell of a detail table, text or number,
    is first turned into its text; a text longer than the maximum length
    of its column is rendered as its first [max_len] characters followed
    by the ellipsis, a text at or under the limit is rendered unchanged. *)
Theorem render_row_cell (r : list value) (i : nat) (item : value) (max_len : Z) :
  nth_error r i = Some item ->
  nth_error max_lengths i = Some max_len ->
  exists t,
    nth_error (render_row r) i = Some (VStr t) /\
    (Z.of_nat (String.length (py_str item)) <= max_len -> t = py_str item) /\
    (Z.of_nat (String.length (py_str item)) > max_len ->
     exists pre,
       t = String.append pre "..." /\
       Z.of_nat (String.length pre) = max_len /\
       prefix pre (py_str item) = true).
Proof.
  intros Hr Hm.
  assert (Hpos : 0 <= max_len).
  { apply nth_error_In in Hm. simpl in Hm. intuition lia. }
  unfold render_row.
  rewrite (map_nth_error _ _ _ (nth_error_combine _ _ _ _ _ Hr Hm)).
  cbn [fst snd truncate_text].
  destruct (Z.of_nat (String.length (py_str item)) >? max_len) eqn:E.
  - eexists. split; [reflexivity|]. split; [lia|]. intros _.
    unfold slice_to. replace (0 <=? max_len) with true by (symmetry; now apply Z.leb_le).
    eexists. split; [reflexivity|]. split.
    + rewrite substring_0_length; lia.
    + apply substring_0_prefix.
  - eexists. split; [reflexivity|]. split; [reflexivity|]. lia.
Qed.

End Rendering.

(** ** Grouping *)


Lemma groupby_keys (df : DataFrame) (c : string) (groups : list (key * list row)) :
  groupby df c = Ok groups -> map fst groups = group_keys (map (get c) (rows df)).
Proof.
  intros H. apply groupby_spec in H. subst groups.
  rewrite map_map. simpl. apply map_id.
Qed.

Lemma groupby_member (df : DataFrame) (c : string) (groups : list (key * list row))
      (k : key) (g : list row) :
  groupby df c = Ok groups -> In (k, g) groups ->
  g = filter (in_group c k) (rows df).
Proof.
  intros H Hin. apply groupby_spec in H. subst groups.
  apply in_map_iff in Hin as [k' [Heq _]]. now injection Heq as <- <-.
Qed.

Section Grouping.

Context {L : Library}.


End Grouping.

(** ** Aggregates *)

Lemma agg_group_spec (g : key * list row) (s : GroupSums) :
  agg_group g = Ok s ->
  gs_key s = fst g /\
  col_sum "quantity_register_uom" (snd g) = Ok (gs_quantity s) /\
  col_sum "total_final_price_czk" (snd g) = Ok (gs_turnover s) /\
  col_sum "gross_margin_czk" (snd g) = Ok (gs_margin s).
Proof.
  unfold agg_group. intros H.
  step H as q Hq. step H as t Ht. step H as m Hm.
  injection H as <-. simpl. auto.
Qed.

Lemma agg_sums_spec (df : DataFrame) (c : string) (sums : list GroupSums) :
  agg_sums df c = Ok sums ->
  exists groups,
    groupby df c = Ok groups /\ Forall2 (fun g s => agg_group g = Ok s) groups sums.
Proof.
  unfold agg_sums. intros H.
  step H as groups Hg. step H as u Hu.
  exists groups. split; [assumption|now apply mapM_Forall2].
Qed.

(** Each aggregate holds the sums over the rows of the table that carry
    its key. *)
Lemma agg_sums_rows (df : DataFrame) (c : string) (sums : list GroupSums) :
  agg_sums df c = Ok sums ->
  map gs_key sums = group_keys (map (get c) (rows df)) /\
  Forall (fun s =>
            let g := filter (in_group c (gs_key s)) (rows df) in
            col_sum "total_final_price_czk" g = Ok (gs_turnover s) /\
            col_sum "gross_margin_czk" g = Ok (gs_margin s)) sums.
Proof.
  intros H. apply agg_sums_spec in H as [groups [Hg HF]].
  rewrite <- (groupby_keys _ _ _ Hg).
  assert (Hmem : forall k g, In (k, g) groups -> g = filter (in_group c k) (rows df))
    by (intros k g; apply (groupby_member _ _ _ _ _ Hg)).
  clear Hg. induction HF as [|[k g] s groups sums Hs HF IH]; simpl.
  - split; constructor.
  - destruct IH as [IHk IHf]; [intros k' g' Hin; apply Hmem; now right|].
    apply agg_group_spec in Hs as [Hk [_ [Ht Hm]]]. simpl in *.
    split; [now rewrite Hk, IHk|].
    constructor; [|assumption].
    rewrite Hk, <- (Hmem k g (or_introl eq_refl)). auto.
Qed.




(** C7, as the code has it.  The summary by product group rounds the sums
    first and derives margin_percent from the rounded turnover and
    margin; the summary by dealer derives margin_percent from the sums as
    aggregated and rounds turnover and margin afterwards. *)
Theorem margin_percent_source_per_summary (df : DataFrame)
        (group_sums dealer_sums : list GroupSums) :
  agg_sums df "nomen_group_parent" = Ok group_sums ->
  agg_sums df "dealer_name" = Ok dealer_sums ->
  (exists out,
     summary_df df = Ok out /\
     Forall2 (fun s a =>
                turnover a = round_half_even (gs_turnover s) /\
                margin a = round_half_even (gs_margin s) /\
                margin_percent a =
                  margin_percent_of (inject_Z (round_half_even (gs_margin s)))
                                    (inject_Z (round_half_even (gs_turnover s))))
             group_sums out) /\
  (exists out,
     dealer_summary_df df = Ok out /\
     Forall2 (fun s a =>
                turnover a = round_half_even (gs_turnover s) /\
                margin a = round_half_even (gs_margin s) /\
                margin_percent a = margin_percent_of (gs_margin s) (gs_turnover s))
             dealer_sums out).
Proof.
  intros Hp Hd. split.
  - exists (map summary_row group_sums). unfold summary_df. rewrite Hp.
    split; [reflexivity|]. clear Hp.
    induction group_sums as [|s l IH]; simpl; constructor; [|exact IH].
    repeat split.
  - exists (map dealer_summary_row dealer_sums). unfold dealer_summary_df. rewrite Hd.
    split; [reflexivity|]. clear Hd.
    induction dealer_sums as [|s l IH]; simpl; constructor; [|exact IH].
    repeat split.
Qed.

(** ** Sums over a partition of the rows *)






(** *** Whole numbers *)






(** ** Reports *)



Section Reports.

Context {L : Library}.



(** C4, as the code has it.  On an empty row sequence the frame has no
    columns: the lookup of the dealer name raises [KeyError] and no
    report is written, whatever the clock reads.  A table that has the
    report's columns and no rows is rendered, with all totals zero and
    empty tables. *)
Theorem empty_input_raises_key_error (now_ytd now_mtd : datetime) (report_type : string) :
  main [] now_ytd now_mtd = ([], Raise (KeyError "dealer_name")) /\
  generate_pdf_report
    {| columns := filter (fun c => negb (String.eqb c "delivery_date")) columns_to_keep;
       rows := [] |} report_type =
  Ok {| pdf_file_name := String.append report_type "_Sales_Report.pdf";
        summary_table := [];
        totals := {| total_turnover := 0; total_margin := 0; avg_margin := 0 |};
        dealer_summary_table := [];
        dealer_tables := [] |}.
Proof.
  split; reflexivity.
Qed.

End Reports.

(** * The properties on the examples *)

#[local] Existing Instance reference_library.

(** ** Instances of the theorems *)


Lemma mtd_subset_ytd_same_year_witness :
  exists ytd_df mtd_df,
    ytd_sales_per_dealer (typed scenario_rows) feb_25_2024 = Ok ytd_df /\
    mtd_sales_per_dealer (typed scenario_rows) feb_25_2024 = Ok mtd_df /\
    incl (rows mtd_df) (rows ytd_df).
Proof.
  apply (mtd_subset_ytd_same_year (typed scenario_rows) feb_25_2024 feb_25_2024);
    reflexivity.
Defined.


Lemma render_row_cell_witness :
  exists t,
    nth_error (render_row long_name_cells) 0 = Some (VStr t) /\
    (Z.of_nat (String.length "PV panel 450W monocrystalline") <= 20 ->
     t = "PV panel 450W monocrystalline"%string) /\
    (Z.of_nat (String.length "PV panel 450W monocrystalline") > 20 ->
     exists pre,
       t = String.append pre "..." /\
       Z.of_nat (String.length pre) = 20 /\
       prefix pre "PV panel 450W monocrystalline" = true).
Proof.
  apply (render_row_cell long_name_cells 0 (VStr "PV panel 450W monocrystalline") 20);
    reflexivity.
Defined.



Lemma margin_percent_source_per_summary_witness :
  exists out,
    summary_df (window_table quarter_rows) = Ok out /\
    Forall2 (fun s a =>
               turnover a = round_half_even (gs_turnover s) /\
               margin a = round_half_even (gs_margin s) /\
               margin_percent a =
                 margin_percent_of (inject_Z (round_half_even (gs_margin s)))
                                   (inject_Z (round_half_even (gs_turnover s))))
            [mkGroupSums (KStr "Pumps") 3 (15 # 4) (5 # 4)] out.
Proof.
  refine (proj1 (margin_percent_source_per_summary
                   (window_table quarter_rows)
                   [mkGroupSums (KStr "Pumps") 3 (15 # 4) (5 # 4)]
                   [mkGroupSums (KStr "Acme") 3 (15 # 4) (5 # 4)] _ _));
    vm_compute; reflexivity.
Defined.


(** ** Where the claims of the specification and the program part *)


(** The rows of zero turnover, which the statement of C1 above leaves
    out: the vectorised division does not raise and the margin_percent
    shown is infinite, in both summaries. *)
Lemma zero_turnover_margin_percent_infinite :
  exists mtd ytd a b,
    main zero_turnover_rows feb_25_2024 feb_25_2024 = ([mtd; ytd], Ok tt) /\
    summary_table ytd = [a] /\
    dealer_summary_table ytd = [b] /\
    turnover a = 0 /\
    margin_percent a = NegInf /\
    margin_percent b = NegInf.
Proof.
  do 4 eexists. split; [vm_compute; reflexivity|]. repeat split.
Qed.


(** C3 on an example: the year-to-date filter reads the clock ten
    microseconds before midnight of 31 December 2024, the month-to-date
    filter at midnight; the line delivered on 1 January 2025 is in the
    month-to-date table and not in the year-to-date table. *)
Lemma mtd_record_outside_ytd :
  exists ytd_df mtd_df r,
    prepare new_year_rows before_midnight at_midnight = Ok (ytd_df, mtd_df) /\
    In r (rows mtd_df) /\
    ~ In r (rows ytd_df).
Proof.
  do 3 eexists. split; [vm_compute; reflexivity|].
  split; [left; reflexivity|]. intros [].
Qed.

(** C4 on the empty row sequence: no report is written and the run ends
    with a [KeyError]. *)
Lemma empty_input_writes_no_report :
  fst (main [] feb_25_2024 feb_25_2024) = [] /\
  snd (main [] feb_25_2024 feb_25_2024) = Raise (KeyError "dealer_name") /\
  snd (main [] feb_25_2024 feb_25_2024) <> Ok tt.
Proof.
  repeat split. discriminate.
Qed.

(** C5 on an example: the quantity 12345678901, an integer cell, is
    rendered cut to ten digits and the ellipsis. *)
Lemma numeric_cell_truncated :
  exists mtd ytd k header cells,
    get "quantity_register_uom" (hd [] (rows (typed large_quantity_rows))) =
      VInt 12345678901 /\
    main large_quantity_rows feb_25_2024 feb_25_2024 = ([mtd; ytd], Ok tt) /\
    dealer_tables ytd = [(k, [header; cells])] /\
    nth_error cells 4 = Some (VStr "1234567890...") /\
    nth_error cells 4 <> Some (VStr (py_str (VInt 12345678901))).
Proof.
  do 5 eexists. split; [vm_compute; reflexivity|].
  split; [vm_compute; reflexivity|].
  split; [reflexivity|]. split; [reflexivity|].
  vm_compute. discriminate.
Qed.


(** C7 on an example: one dealer, one line of turnover 3.75 and margin
    1.25.  The dealer summary shows margin_percent 33.33, the ratio of
    the sums as aggregated; the rounded sums 4 and 1 give 25. *)
Lemma dealer_margin_percent_from_unrounded_sums :
  exists mtd ytd a x y,
    main quarter_rows feb_25_2024 feb_25_2024 = ([mtd; ytd], Ok tt) /\
    dealer_summary_table ytd = [a] /\
    margin_percent a = Fin x /\
    (x == 3333 # 100)%Q /\
    margin_percent_of (inject_Z (margin a)) (inject_Z (turnover a)) = Fin y /\
    (y == 25)%Q /\
    ~ (x == y)%Q.
Proof.
  do 5 eexists. split; [vm_compute; reflexivity|].
  repeat (split; [reflexivity|]).
  intro H. vm_compute in H. discriminate H.
Qed.


(** * Further properties of the program *)

(** ** Coercion: one type per column *)

Lemma mapM_is_raise {A B : Type} (f : A -> result B) (l : list A) :
  is_raise (mapM f l) = existsb (fun a => is_raise (f a)) l.
Proof.
  induction l as [|a l IH]; simpl; [reflexivity|].
  destruct (f a) as [b|e]; simpl; [|reflexivity].
  rewrite <- IH. now destruct (mapM f l).
Qed.

Lemma mapM_Forall_out {A B : Type} (f : A -> result B) (P : B -> Prop)
      (l : list A) (out : list B) :
  (forall a b, f a = Ok b -> P b) -> mapM f l = Ok out -> Forall P out.
Proof.
  intros HP H. apply mapM_Forall2 in H.
  induction H as [|a b l out Hab _ IH]; constructor; eauto.
Qed.

Lemma forallb_map {A B : Type} (p : B -> bool) (g : A -> B) (l : list A) :
  forallb p (map g l) = forallb (fun a => p (g a)) l.
Proof.
  induction l as [|a l IH]; simpl; [reflexivity|]. now rewrite IH.
Qed.

Lemma forallb_impl {A : Type} (p q : A -> bool) (l : list A) :
  (forall a, p a = true -> q a = true) -> forallb p l = true -> forallb q l = true.
Proof.
  intros Hpq H. rewrite forallb_forall in *. auto.
Qed.

Lemma unify_numeric_typed (l : list value) :
  forallb is_numeric l = true ->
  forallb is_int (unify_numeric l) = true \/
  forallb is_float_cell (unify_numeric l) = true.
Proof.
  intros Hn. unfold unify_numeric. rewrite Hn. simpl.
  destruct (forallb is_int l) eqn:Hi; simpl; [now left|right].
  rewrite forallb_map. revert Hn. apply forallb_impl.
  intros [] H; simpl in *; congruence.
Qed.

Lemma unify_numeric_numeric (l : list value) :
  forallb is_numeric l = true -> forallb is_numeric (unify_numeric l) = true.
Proof.
  intros Hn. destruct (unify_numeric_typed l Hn) as [H|H]; revert H;
    apply forallb_impl; intros [] H; simpl in *; congruence.
Qed.

Section OneTypePerColumn.

Context {L : Library}.

Lemma convert_numeric_cell_numeric (v w : value) :
  convert_numeric_cell v = Ok w -> is_numeric w = true.
Proof.
  destruct v; simpl; intros H; try discriminate; try (now injection H as <-).
  destruct (parse_number s) as [[]|]; try discriminate; now injection H as <-.
Qed.

Lemma converted_cells_numeric (col vals : list value) :
  mapM convert_numeric_cell col = Ok vals -> forallb is_numeric vals = true.
Proof.
  intros H. apply forallb_forall. apply Forall_forall.
  revert H. apply mapM_Forall_out. intros a b. apply convert_numeric_cell_numeric.
Qed.

Lemma downcast_integer_typed (vals : list value) :
  forallb is_int vals = true \/ forallb is_float_cell vals = true ->
  forallb is_int (apply_downcast Integer vals) = true \/
  forallb is_float_cell (apply_downcast Integer vals) = true.
Proof.
  intros H. cbn [apply_downcast].
  destruct (forallb is_integral vals) eqn:E; [left|exact H].
  rewrite forallb_map. revert E. apply forallb_impl.
  intros [] Hv; simpl in *; congruence.
Qed.

Lemma correct_column_homogeneous (column : string) (col : list value) :
  homogeneous (correct_column column col) = true.
Proof.
  rewrite correct_column_resolved. unfold homogeneous.
  destruct (String.eqb column "delivery_date").
  - replace (forallb is_date_cell (map to_datetime_cell col)) with true;
      [now rewrite !orb_true_r|].
    symmetry. rewrite forallb_map. apply forallb_forall.
    intros v _. apply to_datetime_cell_is_date.
  - unfold to_numeric, maybe_convert_numeric.
    destruct (mapM convert_numeric_cell col) as [vals|e] eqn:Hm; cbn [bind].
    + apply converted_cells_numeric in Hm.
      destruct (downcast_integer_typed _ (unify_numeric_typed _ Hm)) as [H|H];
        rewrite H; [reflexivity|now rewrite orb_true_r].
    + replace (forallb is_str_cell (astype_str col)) with true;
        [now rewrite orb_true_r|].
      symmetry. unfold astype_str. rewrite forallb_map. now apply forallb_forall.
Qed.

(** After coercion every column of the table holds cells of one resolved
    type (integers, floats with NaN, text, or dates with NaT), and has as
    many cells as the table had rows. *)
Theorem coerced_column_homogeneous (df : DataFrame) (c : string) :
  NoDup (columns df) -> has_column df c = true ->
  exists col,
    getitem (correct_dtypes df) c = Ok col /\
    homogeneous col = true /\
    List.length col = List.length (rows df).
Proof.
  intros Hnd Hc. eexists. split; [now apply correct_dtypes_getitem|].
  split; [apply correct_column_homogeneous|].
  rewrite correct_column_length. apply length_map.
Qed.

(** In a column other than the date column the fallback is column-wide:
    if one cell cannot be read as a number every cell of the column,
    the numbers included, becomes its text; if every cell can, the column
    comes out numeric. *)
Theorem unreadable_cell_makes_column_text (column : string) (col : list value) :
  String.eqb column "delivery_date" = false ->
  if existsb (fun v => is_raise (convert_numeric_cell v)) col
  then correct_column column col = astype_str col
  else forallb is_numeric (correct_column column col) = true.
Proof.
  intros Hc. rewrite correct_column_resolved, Hc.
  rewrite <- (mapM_is_raise convert_numeric_cell col).
  unfold to_numeric, maybe_convert_numeric.
  destruct (mapM convert_numeric_cell col) as [vals|e] eqn:Hm; cbn [bind is_raise];
    [|reflexivity].
  apply converted_cells_numeric in Hm. apply unify_numeric_typed in Hm.
  destruct (downcast_integer_typed _ Hm) as [H|H]; revert H;
    apply forallb_impl; intros [] H; simpl in *; congruence.
Qed.

End OneTypePerColumn.

(** ** Window filters: what they keep *)

Lemma boolean_index_filter (f : value -> result bool) (c : string)
      (rs : list row) (mask : list bool) :
  mapM f (map (get c) rs) = Ok mask ->
  boolean_index rs mask =
    filter (fun r => match f (get c r) with Ok b => b | Raise _ => false end) rs.
Proof.
  revert mask. induction rs as [|r rs IH]; intros mask H; simpl in H.
  - now injection H as <-.
  - destruct (f (get c r)) as [b|e] eqn:Hb; simpl in H; [|discriminate].
    destruct (mapM f (map (get c) rs)) as [bs|e] eqn:Hm; simpl in H; [|discriminate].
    injection H as <-. simpl. rewrite Hb, (IH bs eq_refl). reflexivity.
Qed.

Lemma dropped_column_absent (cs : list string) (c : string) :
  existsb (String.eqb c) (filter (fun k => negb (String.eqb k c)) cs) = false.
Proof.
  induction cs as [|k cs IH]; simpl; [reflexivity|].
  destruct (String.eqb k c) eqn:E; simpl; [exact IH|].
  rewrite String.eqb_sym, E. exact IH.
Qed.

(** The year-to-date table holds, in table order, exactly the rows whose
    date cell is a date of the year read from the clock, without the date
    column; a row whose date is NaT is not in it. *)
Theorem ytd_keeps_rows_of_current_year (df ytd_df : DataFrame) (now : datetime) :
  ytd_sales_per_dealer df now = Ok ytd_df ->
  rows ytd_df =
    map (remove_key "delivery_date") (filter (in_ytd_window now) (rows df)) /\
  columns ytd_df =
    filter (fun k => negb (String.eqb k "delivery_date")) (columns df) /\
  has_column ytd_df "delivery_date" = false.
Proof.
  unfold ytd_sales_per_dealer. intros H.
  step H as col Hcol. step H as mask Hmask.
  unfold getitem in Hcol. destruct (has_column df "delivery_date") eqn:Hc;
    [|discriminate]. injection Hcol as <-.
  unfold drop, has_column in H. cbn [columns rows] in H.
  unfold has_column in Hc. rewrite Hc in H. injection H as <-.
  cbn [rows columns]. rewrite (boolean_index_filter _ _ _ _ Hmask).
  split; [|split; [reflexivity|apply dropped_column_absent]].
  f_equal. apply filter_ext. intros r. unfold in_ytd_window, ytd_cell.
  now destruct (get "delivery_date" r).
Qed.

(** The month-to-date table holds, in table order, exactly the rows whose
    date cell is a date between the clock reading with its day set to 1
    and the clock reading, without the date column; a row whose date is
    NaT is not in it. *)
Theorem mtd_keeps_rows_of_window (df mtd_df : DataFrame) (now : datetime) :
  mtd_sales_per_dealer df now = Ok mtd_df ->
  rows mtd_df =
    map (remove_key "delivery_date") (filter (in_mtd_window now) (rows df)) /\
  columns mtd_df =
    filter (fun k => negb (String.eqb k "delivery_date")) (columns df) /\
  has_column mtd_df "delivery_date" = false.
Proof.
  unfold mtd_sales_per_dealer. intros H.
  step H as col Hcol. step H as mask Hmask.
  unfold getitem in Hcol. destruct (has_column df "delivery_date") eqn:Hc;
    [|discriminate]. injection Hcol as <-.
  unfold drop, has_column in H. cbn [columns rows] in H.
  unfold has_column in Hc. rewrite Hc in H. injection H as <-.
  cbn [rows columns]. rewrite (boolean_index_filter _ _ _ _ Hmask).
  split; [|split; [reflexivity|apply dropped_column_absent]].
  f_equal. apply filter_ext. intros r. unfold in_mtd_window, mtd_cell.
  now destruct (get "delivery_date" r).
Qed.

(** The start of the month-to-date window is the clock reading with its
    day set to 1, time of day kept.  So, read at any time other than
    exactly midnight, a delivery dated (at midnight) on day [dd] of the
    current month is in the window exactly when 2 <= dd <= today: the
    deliveries of the first of the month are left out. *)
Theorem mtd_window_leaves_out_first_of_month (now : datetime) (dd : Z) (r : row) :
  past_midnight now ->
  get "delivery_date" r = VDatetime (midnight (year now) (month now) dd) ->
  in_mtd_window now r = (2 <=? dd) && (dd <=? day now).
Proof.
  intros (Hh & Hm & Hs & Hu & Hpos) Hr. unfold in_mtd_window. rewrite Hr.
  unfold dt_leb, dt_fields, replace_day, midnight. cbn [year month day hour minute second microsecond lex_leb].
  rewrite !Z.ltb_irrefl, !Z.eqb_refl. cbn [orb andb].
  destruct (Z.ltb_spec (hour now) 0); [lia|].
  destruct (Z.ltb_spec (minute now) 0); [lia|].
  destruct (Z.ltb_spec (second now) 0); [lia|].
  destruct (Z.ltb_spec (microsecond now) 0); [lia|].
  destruct (Z.ltb_spec 0 (hour now)), (Z.ltb_spec 0 (minute now)),
    (Z.ltb_spec 0 (second now)), (Z.ltb_spec 0 (microsecond now));
    destruct (Z.eqb_spec (hour now) 0), (Z.eqb_spec (minute now) 0),
      (Z.eqb_spec (second now) 0), (Z.eqb_spec (microsecond now) 0);
    try lia;
    destruct (Z.eqb_spec 0 (hour now)), (Z.eqb_spec 0 (minute now)),
      (Z.eqb_spec 0 (second now)), (Z.eqb_spec 0 (microsecond now));
    try lia; cbn [orb andb];
    destruct (Z.ltb_spec 1 dd), (Z.eqb_spec 1 dd), (Z.leb_spec 2 dd),
      (Z.ltb_spec dd (day now)), (Z.eqb_spec dd (day now)), (Z.leb_spec dd (day now));
    cbn [orb andb]; try reflexivity; lia.
Qed.

(** ** truncate_text *)

Lemma length_append (a b : string) :
  String.length (String.append a b) = (String.length a + String.length b)%nat.
Proof.
  induction a as [|c a IH]; simpl; [reflexivity|]. now rewrite IH.
Qed.

Lemma substring_0_append (a b : string) :
  substring 0 (String.length a) (String.append a b) = a.
Proof.
  induction a as [|c a IH]; simpl; [now destruct b|]. now rewrite IH.
Qed.

(** [truncate_text] leaves anything that is not a string alone.  On a
    string, with a limit that is not negative, the result has the length
    of the text when that is within the limit and [max_len + 3]
    otherwise (so a text one or two characters over the limit comes out
    longer than it was), and truncating the result again changes
    nothing. *)
Theorem truncate_text_length_and_idempotence (text : value) (max_len : Z) :
  0 <= max_len ->
  (is_str_cell text = false -> truncate_text text max_len = text) /\
  (forall s, text = VStr s ->
     exists t,
       truncate_text text max_len = VStr t /\
       Z.of_nat (String.length t) =
         if Z.of_nat (String.length s) >? max_len
         then max_len + 3 else Z.of_nat (String.length s)) /\
  truncate_text (truncate_text text max_len) max_len = truncate_text text max_len.
Proof.
  intros Hpos. split; [|split].
  - destruct text; simpl; intros H; try reflexivity; discriminate.
  - intros s ->. cbn [truncate_text].
    destruct (Z.of_nat (String.length s) >? max_len) eqn:E.
    + eexists. split; [reflexivity|]. unfold slice_to.
      replace (0 <=? max_len) with true by (symmetry; now apply Z.leb_le).
      rewrite length_append, substring_0_length by lia. simpl. lia.
    + eexists. split; reflexivity.
  - destruct text; try reflexivity. cbn [truncate_text].
    destruct (Z.of_nat (String.length s) >? max_len) eqn:E;
      cbn [truncate_text]; [|now rewrite E].
    unfold slice_to.
    replace (0 <=? max_len) with true by (symmetry; now apply Z.leb_le).
    assert (Hlen : String.length (substring 0 (Z.to_nat max_len) s) = Z.to_nat max_len)
      by (apply substring_0_length; lia).
    rewrite length_append, Hlen.
    replace (Z.of_nat (Z.to_nat max_len + String.length "...") >? max_len) with true
      by (symmetry; apply Z.gtb_lt; simpl; lia).
    pose proof (substring_0_append (substring 0 (Z.to_nat max_len) s) "...") as Hsub.
    rewrite Hlen in Hsub. now rewrite Hsub.
Qed.

(** ** from_dict *)



Lemma existsb_eqb_In (c : string) (l : list string) :
  existsb (String.eqb c) l = true <-> In c l.
Proof.
  rewrite existsb_exists. split.
  - intros [x [Hx E]]. apply String.eqb_eq in E. now subst.
  - intros H. exists c. split; [assumption|apply String.eqb_refl].
Qed.

Lemma add_keys_In (c : string) (d : row) (seen : list string) :
  In c (fold_left add_key d seen) <-> In c seen \/ In c (keys d).
Proof.
  revert seen. induction d as [|[k v] d IH]; intros seen; simpl; [tauto|].
  rewrite IH. unfold add_key. simpl.
  destruct (existsb (String.eqb k) seen) eqn:E.
  - apply existsb_eqb_In in E. split; [tauto|].
    intros [H|[<-|H]]; tauto.
  - rewrite in_app_iff. simpl. tauto.
Qed.


Lemma union_keys_In (c : string) (data : list row) (seen : list string) :
  In c (union_keys seen data) <->
  In c seen \/ exists d, In d data /\ In c (keys d).
Proof.
  revert seen. induction data as [|d data IH]; intros seen; simpl.
  - split; [tauto|]. intros [H|[d [[] _]]]. assumption.
  - change (fun acc kv => _) with add_key. rewrite IH, add_keys_In. split.
    + intros [[H|H]|[d' [Hd' H]]]; [now left|right; exists d; auto|right; exists d'; auto].
    + intros [H|[d' [[<-|Hd'] H]]]; [tauto|tauto|right; exists d'; auto].
Qed.


Lemma from_dict_columns_In (data : list row) (c : string) :
  In c (columns (from_dict data)) <-> exists d, In d data /\ In c (keys d).
Proof.
  unfold from_dict. cbn [columns]. rewrite union_keys_In. simpl. tauto.
Qed.


(** ** Missing columns *)

Lemma require_columns_ok (df : DataFrame) (cols : list string) (u : unit) :
  require_columns df cols = Ok u -> forall c, In c cols -> has_column df c = true.
Proof.
  unfold require_columns.
  destruct (find (fun c => negb (has_column df c)) cols) eqn:E; [discriminate|].
  intros _ c Hc. pose proof (find_none _ _ E c Hc) as H. simpl in H.
  now destruct (has_column df c).
Qed.

Lemma groupby_ok_column (df : DataFrame) (c : string) (groups : list (key * list row)) :
  groupby df c = Ok groups -> has_column df c = true.
Proof.
  unfold groupby, getitem. now destruct (has_column df c).
Qed.

Lemma agg_sums_ok_columns (df : DataFrame) (c : string) (sums : list GroupSums) :
  agg_sums df c = Ok sums ->
  has_column df c = true /\
  has_column df "quantity_register_uom" = true /\
  has_column df "total_final_price_czk" = true /\
  has_column df "gross_margin_czk" = true.
Proof.
  unfold agg_sums. intros H. step H as groups Hg. step H as u Hu.
  pose proof (require_columns_ok _ _ _ Hu) as Hall.
  split; [now apply (groupby_ok_column _ _ _ Hg)|].
  repeat split; apply Hall; simpl; tauto.
Qed.

Lemma setitem_columns_present (df : DataFrame) (c : string) (vals : list value) :
  has_column df c = true -> columns (setitem df c vals) = columns df.
Proof.
  intros H. unfold setitem. cbn [columns]. now rewrite H.
Qed.

Section MissingColumns.

Context {L : Library}.

(** The report generator raises, and so writes nothing, on a table that
    lacks one of the columns it groups by or sums. *)
Theorem report_needs_aggregated_columns (df : DataFrame) (report_type c : string) :
  In c aggregated_columns -> has_column df c = false ->
  exists e, generate_pdf_report df report_type = Raise e.
Proof.
  intros Hc Hmiss.
  destruct (generate_pdf_report df report_type) as [rep|e] eqn:E;
    [exfalso|now exists e].
  unfold generate_pdf_report in E.
  step E as summary Hsummary. step E as tot Htot. step E as ds Hds.
  unfold summary_df in Hsummary. step Hsummary as s1 Hs1.
  unfold dealer_summary_df in Hds. step Hds as s2 Hs2.
  apply agg_sums_ok_columns in Hs1 as (H1 & H2 & H3 & H4).
  apply agg_sums_ok_columns in Hs2 as (H5 & _).
  simpl in Hc. destruct Hc as [<-|[<-|[<-|[<-|[<-|[]]]]]]; congruence.
Qed.

(** If none of the fetched rows has one of the eleven columns that
    [main] keeps, [main] raises [KeyError] before any report is written
    (the empty row sequence is the case where every column is missing). *)
Theorem main_needs_kept_columns (all_data : list row) (now_ytd now_mtd : datetime)
        (c : string) :
  In c columns_to_keep ->
  (forall d, In d all_data -> ~ In c (keys d)) ->
  exists k, main all_data now_ytd now_mtd = ([], Raise (KeyError k)).
Proof.
  intros Hc Hmiss.
  assert (Hno : has_column (from_dict all_data) c = false).
  { destruct (has_column (from_dict all_data) c) eqn:E; [|reflexivity].
    apply existsb_eqb_In in E. apply (proj1 (from_dict_columns_In all_data c)) in E.
    destruct E as [d [Hd Hk]]. now elim (Hmiss d Hd). }
  unfold main, prepare.
  destruct (getitem (from_dict all_data) "dealer_name") as [names|e] eqn:Hn;
    cbn [bind].
  - set (df1 := setitem (from_dict all_data) "dealer_name" (map reencode names)).
    assert (Hcols : columns (correct_dtypes df1) = columns (from_dict all_data)).
    { rewrite correct_dtypes_columns. apply setitem_columns_present.
      unfold getitem in Hn. now destruct (has_column (from_dict all_data) "dealer_name"). }
    unfold select_columns.
    destruct (find (fun c0 => negb (has_column (correct_dtypes df1) c0)) columns_to_keep)
      as [k|] eqn:Hf; cbn [bind]; [now exists k|].
    exfalso. pose proof (find_none _ _ Hf c Hc) as H. simpl in H.
    unfold has_column in H, Hno. rewrite Hcols, Hno in H. discriminate.
  - unfold getitem in Hn.
    destruct (has_column (from_dict all_data) "dealer_name"); [discriminate|].
    injection Hn as <-. eexists; reflexivity.
Qed.

End MissingColumns.

(** ** The detail tables *)

Lemma values_tolist_shape (cells : list (list value)) (n : nat) :
  Forall (fun r => List.length r = n) cells ->
  List.length (values_tolist cells) = List.length cells /\
  Forall (fun r => List.length r = n) (values_tolist cells).
Proof.
  intros H. unfold values_tolist.
  destruct (forallb is_numeric (List.concat cells) && negb (forallb is_int (List.concat cells))).
  - split; [apply length_map|]. apply Forall_map.
    revert H. apply Forall_impl. intros r Hr. now rewrite length_map.
  - split; [reflexivity|assumption].
Qed.

Section DetailTables.

Context {L : Library}.

Lemma render_row_length (r : list value) :
  List.length r = 7%nat -> List.length (render_row r) = 7%nat.
Proof.
  intros H. unfold render_row. rewrite length_map, length_combine, H. reflexivity.
Qed.

Lemma dealer_table_shape (df : DataFrame) (g : key * list row)
      (t : key * list (list value)) :
  dealer_table df g = Ok t ->
  fst t = fst g /\
  List.length (snd t) = S (List.length (snd g)) /\
  Forall (fun r => List.length r = 7%nat) (snd t).
Proof.
  unfold dealer_table. intros H.
  step H as u Hu. step H as conts Hconts. step H as u' Hu'.
  injection H as <-. cbn [fst snd].
  apply mapM_length in Hconts.
  match goal with
  | |- context [values_tolist ?X] =>
      assert (Hshape : Forall (fun r => List.length r = 7%nat) X)
        by (apply Forall_map, Forall_forall; intros; reflexivity);
      destruct (values_tolist_shape X 7 Hshape) as [Hlen Hrows]
  end.
  split; [reflexivity|]. split.
  - cbn [map List.length]. f_equal.
    rewrite length_map, Hlen, !length_map, length_combine,
      unify_numeric_length, Hconts.
    apply Nat.min_id.
  - cbn [map]. constructor; [reflexivity|].
    apply Forall_map. revert Hrows. apply Forall_impl.
    intros r. apply render_row_length.
Qed.

(** A report has one detail table per row of the dealer summary, under
    the same dealer keys in the same order (the distinct dealers present,
    sorted).  Each table has a header row and one row per line of
    that dealer, and every row has seven cells. *)
Theorem dealer_tables_follow_dealer_summary (df : DataFrame) (report_type : string)
        (rep : Report) :
  generate_pdf_report df report_type = Ok rep ->
  map fst (dealer_tables rep) = map agg_key (dealer_summary_table rep) /\
  map fst (dealer_tables rep) = group_keys (map (get "dealer_name") (rows df)) /\
  Forall (fun t =>
            List.length (snd t) =
              S (List.length (filter (in_group "dealer_name" (fst t)) (rows df))) /\
            Forall (fun r => List.length r = 7%nat) (snd t))
         (dealer_tables rep).
Proof.
  unfold generate_pdf_report. intros H.
  step H as summary Hsummary. step H as tot Htot. step H as ds Hds.
  step H as groups Hgroups. step H as tables Htables.
  injection H as <-. cbn [dealer_tables dealer_summary_table].
  unfold dealer_summary_df in Hds. step Hds as sums Hsums. injection Hds as <-.
  apply agg_sums_rows in Hsums as [Hkeys _].
  apply mapM_Forall2 in Htables.
  assert (Hfst : map fst tables = map fst groups).
  { clear - Htables. induction Htables as [|g t gs ts Hgt _ IH]; simpl; [reflexivity|].
    apply dealer_table_shape in Hgt as [-> _]. now rewrite IH. }
  rewrite map_map. cbn [dealer_summary_row agg_key].
  change (map (fun x => gs_key x) sums) with (map gs_key sums).
  rewrite Hkeys, Hfst, (groupby_keys _ _ _ Hgroups).
  split; [reflexivity|]. split; [reflexivity|].
  assert (Hmem : forall k g, In (k, g) groups ->
                             g = filter (in_group "dealer_name" k) (rows df))
    by (intros k g; apply (groupby_member _ _ _ _ _ Hgroups)).
  clear - Htables Hmem.
  induction Htables as [|[k g] t gs ts Hgt _ IH]; constructor.
  - apply dealer_table_shape in Hgt as (Hk & Hlen & Hrows). cbn [fst snd] in *.
    rewrite Hk, Hlen, (Hmem k g (or_introl eq_refl)). auto.
  - apply IH. intros k' g' Hin. apply Hmem. now right.
Qed.

End DetailTables.

(** ** retry *)

Lemma first_success_bounds {W E A : Type} (op : W -> W * (raised E + A))
      (k : nat) (w : W) :
  match first_success op k w with
  | (_, es, r) =>
      (List.length es <= k)%nat /\ (r = None <-> List.length es = k)
  end.
Proof.
  revert w. induction k as [|k IH]; intros w; simpl.
  - split; [lia|tauto].
  - destruct (op w) as [w' [e|a]].
    + specialize (IH w'). destruct (first_success op k w') as [[w'' es] r].
      simpl. destruct IH as [Hle Hiff]. split; [lia|].
      rewrite Hiff. split; lia.
    + simpl. split; [lia|]. split; [discriminate|lia].
Qed.

Lemma retry_loop_world_op {W E A : Type} (op : W -> W * (raised E + A))
      (n start : nat) (s : W * Effects E) :
  retry_loop (world_op op) (seq start n) s =
  match first_success op n (fst s) with
  | (w', es, r) =>
      ((w', mkEffects (log (snd s) ++ warnings (start + 1) es)
                      (slept (snd s) + 20 * Z.of_nat (List.length es))
                      (written (snd s))),
       inr r)
  end.
Proof.
  revert start s. induction n as [|n IH]; intros start [w [l sl wr]].
  - simpl. unfold ret. now rewrite app_nil_r, Z.add_0_r.
  - cbn [seq retry_loop first_success fst snd].
    unfold try_except, bindM, world_op. cbn [fst snd].
    destruct (op w) as [w' [e|a]].
    + unfold logging, sleep. cbn [fst snd log slept written].
      rewrite IH. cbn [fst snd log slept written].
      destruct (first_success op n w') as [[w'' es] r].
      cbn [warnings List.length]. rewrite <- app_assoc. cbn [app].
      replace (S start + 1)%nat with (S (start + 1)) by lia.
      do 3 f_equal. lia.
    + unfold ret. cbn [warnings List.length]. now rewrite app_nil_r, Z.add_0_r.
Qed.

Lemma retry_loop_ext {W E A : Type} (op1 op2 : M W E A) (attempts : list nat)
      (s : W * Effects E) :
  (forall s', op1 s' = op2 s') ->
  retry_loop op1 attempts s = retry_loop op2 attempts s.
Proof.
  intros Hext. revert s. induction attempts as [|a rest IH]; intros s; [reflexivity|].
  cbn [retry_loop]. unfold try_except, bindM. rewrite Hext.
  destruct (op2 s) as [s' [e|x]]; [|reflexivity].
  destruct (logging (Warning_attempt (a + 1) e) s') as [s1 [e1|u1]]; [reflexivity|].
  destruct (sleep 20 s1) as [s2 [e2|u2]]; [reflexivity|]. apply IH.
Qed.

(** [retry] around an operation that acts on the outside: the operation
    is called until it first succeeds, three times at most; every failed
    call, the last one included, logs one warning, numbered from 1, and
    costs 20 seconds of sleep; [retry] itself never raises, and returns
    [None] exactly when there were three failures. *)
Theorem retry_three_attempts {W E A : Type} (op : W -> W * (raised E + A))
        (s : W * Effects E) :
  exists w' es r,
    first_success op max_attempts (fst s) = (w', es, r) /\
    retry (world_op op) s =
      ((w', mkEffects (log (snd s) ++ warnings 1 es)
                      (slept (snd s) + 20 * Z.of_nat (List.length es))
                      (written (snd s))),
       inr r) /\
    (List.length es <= 3)%nat /\
    (r = None <-> List.length es = 3%nat).
Proof.
  pose proof (first_success_bounds op max_attempts (fst s)) as Hb.
  pose proof (retry_loop_world_op op max_attempts 0 s) as Hr.
  destruct (first_success op max_attempts (fst s)) as [[w' es] r].
  exists w', es, r. split; [reflexivity|]. split; [exact Hr|exact Hb].
Qed.

(** ** execute_query: the records *)

Lemma set_absent (c : string) (v : value) (d : row) :
  ~ In c (keys d) -> set c v d = d ++ [(c, v)].
Proof.
  induction d as [|[k w] d IH]; simpl; intros H; [reflexivity|].
  destruct (String.eqb k c) eqn:E.
  - apply String.eqb_eq in E. subst. exfalso. apply H. now left.
  - rewrite IH; [reflexivity|]. intros Hin. apply H. now right.
Qed.

Lemma fold_set_fresh (pairs acc : row) :
  NoDup (keys acc ++ keys pairs) ->
  fold_left (fun d kv => set (fst kv) (snd kv) d) pairs acc = acc ++ pairs.
Proof.
  revert acc. induction pairs as [|[c v] pairs IH]; intros acc Hnd; simpl.
  - now rewrite app_nil_r.
  - simpl in Hnd. pose proof (NoDup_remove_2 _ _ _ Hnd) as Hc.
    rewrite set_absent by (intros Hin; apply Hc, in_or_app; now left).
    rewrite IH.
    + now rewrite <- app_assoc.
    + unfold keys in *. rewrite map_app, <- app_assoc. exact Hnd.
Qed.

Lemma find_app {A : Type} (f : A -> bool) (l1 l2 : list A) :
  find f (l1 ++ l2) = match find f l1 with Some x => Some x | None => find f l2 end.
Proof.
  induction l1 as [|a l1 IH]; simpl; [reflexivity|]. now destruct (f a).
Qed.

Lemma fold_set_lookup (c : string) (pairs acc : row) :
  get c (fold_left (fun d kv => set (fst kv) (snd kv) d) pairs acc) =
  match find (fun kv => String.eqb (fst kv) c) (rev pairs) with
  | Some kv => snd kv
  | None => get c acc
  end.
Proof.
  revert acc. induction pairs as [|[k v] pairs IH]; intros acc; simpl; [reflexivity|].
  rewrite IH, find_app. simpl.
  destruct (find (fun kv => String.eqb (fst kv) c) (rev pairs)); [reflexivity|].
  destruct (String.eqb k c) eqn:E.
  - apply String.eqb_eq in E. subst. apply get_set_same.
  - apply get_set_other. intros ->. now rewrite String.eqb_refl in E.
Qed.


Lemma get_combine (names : list string) (r : list value) (i : nat) (c : string)
      (v : value) :
  NoDup names -> nth_error names i = Some c -> nth_error r i = Some v ->
  get c (combine names r) = v.
Proof.
  intros Hnd. revert r i. induction Hnd as [|n names Hn Hnd IH];
    intros [|w r] [|i] Hc Hv; simpl in *; try discriminate.
  - injection Hc as ->. injection Hv as ->. now rewrite String.eqb_refl.
  - destruct (String.eqb n c) eqn:E; [|now apply (IH r i)].
    apply String.eqb_eq in E. subst. exfalso. apply Hn.
    now apply nth_error_In in Hc.
Qed.

Lemma row_dict_lookup_general (column_names : list string) (r : list value) :
  (forall c,
     get c (py_dict (combine column_names r)) =
       match find (fun kv => String.eqb (fst kv) c) (rev (combine column_names r)) with
       | Some kv => snd kv
       | None => VNaN
       end) /\
  (NoDup column_names ->
   py_dict (combine column_names r) = combine column_names r /\
   forall i c v,
     nth_error column_names i = Some c -> nth_error r i = Some v ->
     get c (py_dict (combine column_names r)) = v).
Proof.
  split.
  - intros c. unfold py_dict. now rewrite fold_set_lookup.
  - intros Hnd.
    assert (Hid : py_dict (combine column_names r) = combine column_names r).
    { unfold py_dict. rewrite fold_set_fresh; [reflexivity|]. simpl.
      clear - Hnd. revert r. induction Hnd as [|n names Hn Hnd IH]; intros [|v r];
        simpl; try constructor.
      - intros Hin. apply Hn. unfold keys in Hin.
        apply in_map_iff in Hin as [[k w] [<- Hin]]. now apply in_combine_l in Hin.
      - apply IH. }
    split; [exact Hid|]. intros i c v Hc Hv. rewrite Hid.
    now apply (get_combine column_names r i).
Qed.

(** The dict that [execute_query] builds for a row.  Looking a column
    name up gives the value of the last column of that name (an earlier
    column of the same name is lost).  When the column names are
    distinct the dict is the row, name by name and in column order, and
    the lookup of the i-th name gives the i-th value. *)
Theorem row_dict_lookup (column_names : list string) (r : list value) :
  (forall c,
     get c (py_dict (combine column_names r)) =
       match find (fun kv => String.eqb (fst kv) c) (rev (combine column_names r)) with
       | Some kv => snd kv
       | None => VNaN
       end) /\
  (NoDup column_names ->
   py_dict (combine column_names r) = combine column_names r /\
   forall i c v,
     nth_error column_names i = Some c -> nth_error r i = Some v ->
     get c (py_dict (combine column_names r)) = v).
Proof.
  exact (row_dict_lookup_general column_names r).
Qed.






(** ** get_query_files *)

Lemma prefix_append_iff (p s : string) :
  prefix p s = true <-> exists rest, s = String.append p rest.
Proof.
  revert s. induction p as [|a p IH]; intros s.
  - simpl. split; [intros _; now exists s|]. intros _. now destruct s.
  - destruct s as [|b s]; simpl.
    + split; [discriminate|]. intros [rest H]. discriminate.
    + destruct (ascii_dec a b) as [->|Hne].
      * rewrite IH. split; intros [rest H]; exists rest; congruence.
      * split; [discriminate|]. intros [rest H]. congruence.
Qed.

Lemma substring_0_all (s : string) : substring 0 (String.length s) s = s.
Proof.
  induction s as [|c s IH]; simpl; [reflexivity|]. now rewrite IH.
Qed.

Lemma substring_split (n : nat) (s : string) :
  (n <= String.length s)%nat ->
  s = String.append (substring 0 n s) (substring n (String.length s - n) s).
Proof.
  revert n. induction s as [|c s IH]; intros [|n] Hn; simpl in *; try reflexivity;
    try lia.
  - now rewrite substring_0_all.
  - f_equal. apply IH. lia.
Qed.

Lemma substring_append_suffix (pre suf : string) :
  substring (String.length pre) (String.length suf) (String.append pre suf) = suf.
Proof.
  induction pre as [|c pre IH]; simpl; [apply substring_0_all|exact IH].
Qed.

Lemma ends_with_append_iff (suf s : string) :
  ends_with suf s = true <-> exists pre, s = String.append pre suf.
Proof.
  unfold ends_with. rewrite andb_true_iff, Nat.leb_le, String.eqb_eq. split.
  - intros [Hle Hsub].
    exists (substring 0 (String.length s - String.length suf) s).
    rewrite (substring_split (String.length s - String.length suf) s) at 1 by lia.
    f_equal. replace (String.length s - (String.length s - String.length suf))%nat
      with (String.length suf) by lia.
    exact Hsub.
  - intros [pre ->]. rewrite length_append. split; [lia|].
    replace (String.length pre + String.length suf - String.length suf)%nat
      with (String.length pre) by lia.
    apply substring_append_suffix.
Qed.

Lemma append_assoc (a b c : string) :
  String.append (String.append a b) c = String.append a (String.append b c).
Proof.
  induction a as [|x a IH]; simpl; [reflexivity|]. now rewrite IH.
Qed.

Lemma is_query_file_iff (file : string) :
  is_query_file file = true <->
  exists middle, file = String.append "query" (String.append middle ".txt").
Proof.
  unfold is_query_file. rewrite andb_true_iff, prefix_append_iff, ends_with_append_iff.
  split.
  - intros [[rest Hrest] [pre Hpre]]. subst file.
    destruct pre as [|c1 [|c2 [|c3 [|c4 [|c5 pre]]]]]; simpl in Hpre;
      try discriminate; injection Hpre; intros; subst; try discriminate.
    now exists pre.
  - intros [middle ->]. split; [now exists (String.append middle ".txt")|].
    exists (String.append "query" middle). now rewrite append_assoc.
Qed.

(** [get_query_files] returns, in the order of the directory listing,
    exactly the listed names of the form query...txt, where the ".txt"
    does not overlap the "query": the shortest such name is query.txt.
    It touches the outside through the listing only, and a listing that
    fails is raised to the caller. *)
Theorem get_query_files_selects_query_txt {W Conn E : Type}
        (env : Environment W Conn E) (s : W * Effects E) :
  match os_listdir env (fst s) with
  | (w', inr files) =>
      exists queries,
        get_query_files env s = ((w', snd s), inr queries) /\
        queries = filter is_query_file files /\
        forall f, In f queries <->
                  In f files /\
                  exists middle,
                    f = String.append "query" (String.append middle ".txt") /\
                    String.length f = (9 + String.length middle)%nat
  | (w', inl e) => get_query_files env s = ((w', snd s), inl (EnvError e))
  end.
Proof.
  unfold get_query_files, bindM, call, world_op.
  destruct (os_listdir env (fst s)) as [w' [e|files]]; [reflexivity|].
  eexists. split; [reflexivity|]. split; [reflexivity|].
  intros f. rewrite filter_In, is_query_file_iff. split.
  - intros [Hin [middle ->]]. split; [assumption|]. exists middle.
    split; [reflexivity|]. simpl. rewrite length_append. simpl. lia.
  - intros [Hin [middle [-> _]]]. split; [assumption|]. now exists middle.
Qed.

(** ** process_queries *)

Lemma first_success_all_fail {W E A : Type} (op : W -> W * (raised E + A)) (k : nat) (w : W) :
  (forall w0, exists w1 e, op w0 = (w1, inl e)) ->
  exists w' es, first_success op k w = (w', es, None) /\ List.length es = k.
Proof.
  intros Hfail. revert w. induction k as [|k IH]; intros w; simpl.
  - now exists w, [].
  - destruct (Hfail w) as [w1 [e ->]]. destruct (IH w1) as [w' [es [-> Hlen]]].
    exists w', (e :: es). simpl. auto.
Qed.

(** What [retry] around a call on the outside leaves behind. *)
Lemma retry_world_op_summary {W E A : Type} (op : W -> W * (raised E + A))
      (s : W * Effects E) :
  exists s' r n,
    retry (world_op op) s = (s', inr r) /\
    written (snd s') = written (snd s) /\
    slept (snd s') = slept (snd s) + 20 * Z.of_nat n /\
    (n <= 3)%nat /\
    (r = None <-> n = 3%nat).
Proof.
  unfold retry. rewrite retry_loop_world_op.
  pose proof (first_success_bounds op max_attempts (fst s)) as Hb.
  destruct (first_success op max_attempts (fst s)) as [[w' es] r].
  eexists; exists r, (List.length es). split; [reflexivity|]. cbn [snd written slept].
  destruct Hb as [Hle Hiff]. auto.
Qed.

Section Queries.

Variables W Conn E : Type.
Variable env : Environment W Conn E.

Lemma execute_query_as_retry (conn : Conn) (query : string) (s : W * Effects E) :
  execute_query env conn query s = retry (world_op (fetch_records env conn query)) s.
Proof.
  unfold execute_query, retry. apply retry_loop_ext. intros s'.
  unfold execute_query_body, bindM, call, world_op, fetch_records, ret.
  destruct (cursor_fetch env conn query (fst s')) as [w' [e|res]]; reflexivity.
Qed.

Lemma connect_as_retry (d sv db u p : json) (s : W * Effects E) :
  connect_to_database env d sv db u p s =
  retry (world_op (open_connection env
                     (conn_str (str_json env d) (str_json env sv) (str_json env db)
                               (str_json env u) (str_json env p)))) s.
Proof.
  unfold connect_to_database, retry. apply retry_loop_ext. intros s'.
  unfold call, world_op, open_connection.
  destruct (pyodbc_connect env _ (fst s')) as [w' [e|c]]; reflexivity.
Qed.

Lemma process_loop_summary (conn : Conn) (queries : list string) :
  (forall q w, exists w' t, read_text env q w = (w', inr t)) ->
  forall (all_data : list row) (s : W * Effects E),
  exists s' d,
    process_loop env conn queries all_data s = (s', inr d) /\
    written (snd s') = written (snd s) /\
    slept (snd s) <= slept (snd s') <=
      slept (snd s) + 60 * Z.of_nat (List.length queries) /\
    ((forall q w, exists w' e, cursor_fetch env conn q w = (w', inl e)) ->
     d = all_data /\
     slept (snd s') = slept (snd s) + 60 * Z.of_nat (List.length queries)).
Proof.
  intros Hread. induction queries as [|q rest IH]; intros all_data s.
  - exists s, all_data. cbn [process_loop List.length]. unfold ret.
    split; [reflexivity|]. split; [reflexivity|]. split; [lia|].
    intros _. split; [reflexivity|lia].
  - cbn [process_loop]. unfold bindM at 1. unfold logging at 1. cbn [fst snd].
    unfold bindM at 1. unfold call at 1, world_op at 1. cbn [fst snd].
    destruct (Hread q (fst s)) as [w1 [t Ht]]. rewrite Ht.
    unfold bindM at 1. rewrite execute_query_as_retry.
    match goal with
    | |- context [retry (world_op ?op) ?s0] =>
        destruct (retry_world_op_summary op s0) as (s2 & r & n & Hr & Hw & Hs & Hn & Hnone);
        pose proof (first_success_all_fail op max_attempts (fst s0)) as Hall;
        pose proof (retry_loop_world_op op max_attempts 0 s0) as Hraw
    end.
    rewrite Hr. cbn [snd written slept] in Hw, Hs.
    destruct (IH (extend_if all_data r) s2) as (s' & d & Hd & Hw' & Hs' & Hfail').
    exists s', d. split; [exact Hd|]. split; [congruence|].
    cbn [List.length]. rewrite Nat2Z.inj_succ. split; [clear - Hs Hs' Hn; lia|].
    intros Hfail. destruct (Hfail' Hfail) as [Hdata Hslept].
    destruct Hall as [w' [es [Hfs Hlen]]].
    { intros w0. unfold fetch_records. destruct (Hfail t w0) as [w1' [e ->]].
      now exists w1', (EnvError e). }
    assert (Hnone' : r = None).
    { unfold retry in Hr. rewrite Hraw, Hfs in Hr. now injection Hr. }
    apply Hnone in Hnone' as Hn3. subst r n. cbn [extend_if] in Hdata.
    split; [exact Hdata|]. clear - Hs Hslept. lia.
Qed.

(** As long as the query files can be read, [process_queries] returns,
    whatever the database does: a query that fails three times is given
    up and skipped, and the loop goes on to the next file.  Nothing is
    written, and the time slept is at most 60 seconds per query file.
    If the database fails every query, the result is the empty row
    sequence after exactly 60 seconds per query file. *)
Theorem process_queries_skips_failed_queries (conn : Conn) (queries : list string)
        (s : W * Effects E) :
  (forall q w, exists w' t, read_text env q w = (w', inr t)) ->
  exists s' all_data,
    process_queries env conn queries s = (s', inr all_data) /\
    written (snd s') = written (snd s) /\
    slept (snd s) <= slept (snd s') <=
      slept (snd s) + 60 * Z.of_nat (List.length queries) /\
    ((forall q w, exists w' e, cursor_fetch env conn q w = (w', inl e)) ->
     all_data = [] /\
     slept (snd s') = slept (snd s) + 60 * Z.of_nat (List.length queries)).
Proof.
  intros Hread. exact (process_loop_summary conn queries Hread [] s).
Qed.

End Queries.

(** ** main, from its first statement *)

Section WholeRun.

Context {L : Library}.
Variables W Conn E : Type.
Variable env : Environment W Conn E.

Lemma credentials_loaded (s : W * Effects E) (w' : W)
      (all_credentials : list (string * json)) (credentials : list (string * json)) :
  load_json env (fst s) = (w', inr (JObject all_credentials)) ->
  json_get "database" all_credentials = Some (JObject credentials) ->
  get_database_credentials env s = ((w', snd s), inr (Some (JObject credentials))).
Proof.
  intros Hl Hg. unfold get_database_credentials, try_except, bindM, call, world_op.
  rewrite Hl, Hg. reflexivity.
Qed.

Lemma query_files_listed (s : W * Effects E) (w' : W) (files : list string) :
  os_listdir env (fst s) = (w', inr files) ->
  get_query_files env s = ((w', snd s), inr (filter is_query_file files)).
Proof.
  intros Hl. unfold get_query_files, bindM, call, world_op. now rewrite Hl.
Qed.

Lemma subscript_present (credentials : list (string * json)) (k : string) (v : json)
      (s : W * Effects E) :
  json_get k credentials = Some v ->
  subscript (JObject credentials) k s = (s, inr v).
Proof.
  intros H. unfold subscript. now rewrite H.
Qed.

Lemma connect_refused (d sv db u p : json) (s : W * Effects E) :
  (forall str w, exists w' e, pyodbc_connect env str w = (w', inl e)) ->
  exists s',
    connect_to_database env d sv db u p s = (s', inr None) /\
    written (snd s') = written (snd s) /\
    slept (snd s') = slept (snd s) + 60.
Proof.
  intros Hfail. rewrite connect_as_retry. unfold retry. rewrite retry_loop_world_op.
  match goal with
  | |- context [first_success ?op ?k ?w] =>
      destruct (first_success_all_fail op k w) as [w' [es [-> Hlen]]]
  end.
  - intros w0. unfold open_connection.
    destruct (Hfail (conn_str (str_json env d) (str_json env sv) (str_json env db)
                              (str_json env u) (str_json env p)) w0) as [w1 [e ->]].
    now exists w1, (EnvError e).
  - eexists. split; [reflexivity|]. cbn [snd written slept].
    split; [reflexivity|]. rewrite Hlen. reflexivity.
Qed.

Lemma connect_accepted (d sv db u p : json) (s : W * Effects E) :
  (forall str w, exists w' c, pyodbc_connect env str w = (w', inr c)) ->
  exists w' c,
    connect_to_database env d sv db u p s = ((w', snd s), inr (Some c)).
Proof.
  intros Hok. rewrite connect_as_retry. unfold retry. rewrite retry_loop_world_op.
  unfold max_attempts. cbn [first_success]. unfold open_connection.
  destruct (Hok (conn_str (str_json env d) (str_json env sv) (str_json env db)
                          (str_json env u) (str_json env p)) (fst s)) as [w1 [c ->]].
  exists w1, c. destruct s as [w [l sl wr]]. cbn [fst snd log slept written warnings List.length].
  now rewrite app_nil_r, Z.add_0_r.
Qed.

(** Without usable credentials [main] returns at once: when the
    credentials file cannot be loaded, is not an object, has no
    "database" entry, or has an empty one, [main] ends normally after
    reading the file, without sleeping and without writing a report. *)
Theorem main_returns_without_credentials (now_ytd now_mtd : datetime)
        (s : W * Effects E) :
  match snd (load_json env (fst s)) with
  | inr (JObject m) =>
      match json_get "database" m with
      | Some c => truthy c = false
      | None => True
      end
  | _ => True
  end ->
  exists fx',
    main_program env now_ytd now_mtd s = ((fst (load_json env (fst s)), fx'), inr tt) /\
    written fx' = written (snd s) /\
    slept fx' = slept (snd s).
Proof.
  intros H. unfold main_program, get_database_credentials, try_except.
  unfold bindM, call, world_op, logging, ret. cbn [fst snd].
  destruct (load_json env (fst s)) as [w' [e|j]]; cbn [fst snd] in *.
  - eexists. split; [reflexivity|]. split; reflexivity.
  - destruct j as [|b|x|str|l|m]; cbn [raise];
      try (eexists; split; [reflexivity|split; reflexivity]).
    destruct (json_get "database" m) as [c|];
      [|eexists; split; [reflexivity|split; reflexivity]].
    destruct c; try rewrite H; cbn [negb];
      eexists; (split; [reflexivity|split; reflexivity]).
Qed.

Section WithCredentials.

Variables all_credentials credentials : list (string * json).
Variables driver server database username password : json.
Variable files : list string.

Hypothesis Hload :
  forall w, exists w', load_json env w = (w', inr (JObject all_credentials)).
Hypothesis Hdb : json_get "database" all_credentials = Some (JObject credentials).
Hypothesis Hdriver : json_get "driver" credentials = Some driver.
Hypothesis Hserver : json_get "server" credentials = Some server.
Hypothesis Hdatabase : json_get "database" credentials = Some database.
Hypothesis Husername : json_get "username" credentials = Some username.
Hypothesis Hpassword : json_get "password" credentials = Some password.
Hypothesis Hlist : forall w, exists w', os_listdir env w = (w', inr files).

(** [main] up to the call of [connect_to_database]: the state it reaches
    and the query files it found. *)
Lemma main_program_until_connect (now_ytd now_mtd : datetime) (s : W * Effects E) :
  exists s1,
    written (snd s1) = written (snd s) /\
    slept (snd s1) = slept (snd s) /\
    main_program env now_ytd now_mtd s =
      bindM (connect_to_database env driver server database username password)
        (fun conn =>
           bindM (match conn with
                  | Some c =>
                      bindM (process_queries env c (filter is_query_file files))
                            (fun all_data =>
                               bindM (call (conn_close env c)) (fun _ =>
                               ret (Some all_data)))
                  | None => ret None
                  end)
             (fun all_data =>
                match all_data with
                | None => raise (UnboundLocalError "all_data")
                | Some all_data =>
                    bindM (write_reports (fst (main all_data now_ytd now_mtd)))
                      (fun _ =>
                         match snd (main all_data now_ytd now_mtd) with
                         | Ok _ => ret tt
                         | Raise e => raise (PyExn e)
                         end)
                end)) s1.
Proof.
  destruct s as [w0 fx0].
  destruct (Hload w0) as [w1 Hl]. destruct (Hlist w1) as [w2 Hls].
  eexists (w2, mkEffects _ _ _). split; [|split]; cycle 2.
  - unfold main_program. unfold bindM at 1. unfold logging at 1. cbn [fst snd].
    unfold bindM at 1.
    rewrite (credentials_loaded (w0, _) w1 all_credentials credentials Hl Hdb).
    assert (Htruthy : truthy (JObject credentials) = true)
      by (destruct credentials; [discriminate Hdriver|reflexivity]).
    rewrite Htruthy. cbn [negb snd].
    unfold bindM at 1. rewrite (query_files_listed (w1, _) w2 files Hls).
    unfold bindM at 1. unfold logging at 1. cbn [fst snd log slept written].
    unfold bindM at 1. rewrite (subscript_present _ _ _ _ Hdriver).
    unfold bindM at 1. rewrite (subscript_present _ _ _ _ Hserver).
    unfold bindM at 1. rewrite (subscript_present _ _ _ _ Hdatabase).
    unfold bindM at 1. rewrite (subscript_present _ _ _ _ Husername).
    unfold bindM at 1. rewrite (subscript_present _ _ _ _ Hpassword).
    reflexivity.
  - reflexivity.
  - reflexivity.
Qed.

(** If the database refuses the connection three times, [main] does not
    stop cleanly: [all_data] was never bound, so building the frame
    raises [UnboundLocalError], after 60 seconds of sleep and without a
    report. *)
Theorem main_unbound_when_connection_refused (now_ytd now_mtd : datetime)
        (s : W * Effects E) :
  (forall str w, exists w' e, pyodbc_connect env str w = (w', inl e)) ->
  exists s',
    main_program env now_ytd now_mtd s = (s', inl (UnboundLocalError "all_data")) /\
    written (snd s') = written (snd s) /\
    slept (snd s') = slept (snd s) + 60.
Proof.
  intros Hconn.
  destruct (main_program_until_connect now_ytd now_mtd s) as (s1 & Hw1 & Hs1 & ->).
  destruct (connect_refused driver server database username password s1 Hconn)
    as (s2 & Hc & Hw2 & Hs2).
  exists s2. split; [|split; congruence].
  unfold bindM at 1. rewrite Hc. reflexivity.
Qed.

(** If the connection is made and the database fails every query (or the
    directory holds no query file), [main] goes on with no rows: it
    raises [KeyError] on the dealer name column, after 60 seconds of
    sleep per query file and without a report. *)
Theorem main_key_error_when_every_query_fails (now_ytd now_mtd : datetime)
        (s : W * Effects E) :
  (forall str w, exists w' c, pyodbc_connect env str w = (w', inr c)) ->
  (forall q w, exists w' t, read_text env q w = (w', inr t)) ->
  (forall c q w, exists w' e, cursor_fetch env c q w = (w', inl e)) ->
  (forall c w, exists w', conn_close env c w = (w', inr tt)) ->
  exists s',
    main_program env now_ytd now_mtd s = (s', inl (PyExn (KeyError "dealer_name"))) /\
    written (snd s') = written (snd s) /\
    slept (snd s') =
      slept (snd s) + 60 * Z.of_nat (List.length (filter is_query_file files)).
Proof.
  intros Hconn Hread Hfetch Hclose.
  destruct (main_program_until_connect now_ytd now_mtd s) as (s1 & Hw1 & Hs1 & ->).
  destruct (connect_accepted driver server database username password s1 Hconn)
    as (w2 & c & Hc).
  destruct (process_loop_summary _ _ _ env c (filter is_query_file files) Hread [] (w2, snd s1))
    as (s3 & d & Hp & Hw3 & _ & Hall).
  destruct (Hall (Hfetch c)) as [-> Hs3].
  destruct (Hclose c (fst s3)) as [w4 Hcl].
  exists (w4, mkEffects (log (snd s3)) (slept (snd s3)) (written (snd s3) ++ [])).
  split; [|split; cbn [snd written slept] in *; rewrite ?app_nil_r; congruence].
  unfold bindM at 1. rewrite Hc. unfold bindM at 1. unfold bindM at 1.
  unfold process_queries. rewrite Hp. unfold bindM at 1. unfold call, world_op. rewrite Hcl.
  unfold ret at 1. cbv beta iota.
  replace (main [] now_ytd now_mtd) with
    (@nil Report, @Raise unit (KeyError "dealer_name")) by reflexivity.
  reflexivity.
Qed.

End WithCredentials.

End WholeRun.

(** * The further properties on the examples *)

Lemma coerced_column_homogeneous_witness :
  NoDup (columns scenario_frame) /\
  has_column scenario_frame "quantity_register_uom" = true /\
  exists col,
    getitem (correct_dtypes scenario_frame) "quantity_register_uom" = Ok col /\
    homogeneous col = true /\
    List.length col = List.length (rows scenario_frame).
Proof.
  assert (Hnd : NoDup (columns scenario_frame))
    by (vm_compute; repeat constructor; simpl; intuition discriminate).
  split; [exact Hnd|]. split; [reflexivity|].
  exact (coerced_column_homogeneous scenario_frame "quantity_register_uom" Hnd eq_refl).
Defined.

Lemma unreadable_cell_makes_column_text_witness :
  String.eqb "quantity_register_uom" "delivery_date" = false /\
  correct_column "quantity_register_uom" [VInt 10; VStr "n/a"; VFloat (5 # 2)] =
    astype_str [VInt 10; VStr "n/a"; VFloat (5 # 2)].
Proof.
  split; [reflexivity|].
  exact (unreadable_cell_makes_column_text "quantity_register_uom"
           [VInt 10; VStr "n/a"; VFloat (5 # 2)] eq_refl).
Defined.

Lemma ytd_keeps_rows_of_current_year_witness :
  exists ytd_df,
    ytd_sales_per_dealer (typed scenario_rows) feb_25_2024 = Ok ytd_df /\
    rows ytd_df =
      map (remove_key "delivery_date")
          (filter (in_ytd_window feb_25_2024) (rows (typed scenario_rows))) /\
    List.length (rows ytd_df) = 2%nat.
Proof.
  destruct (ytd_sales_per_dealer (typed scenario_rows) feb_25_2024) as [ytd_df|e] eqn:E;
    [|vm_compute in E; discriminate E].
  exists ytd_df. split; [reflexivity|].
  destruct (ytd_keeps_rows_of_current_year (typed scenario_rows) ytd_df feb_25_2024 E)
    as [H _].
  split; [exact H|]. rewrite H. reflexivity.
Defined.

Lemma mtd_keeps_rows_of_window_witness :
  exists mtd_df,
    mtd_sales_per_dealer (typed scenario_rows) feb_25_2024 = Ok mtd_df /\
    rows mtd_df =
      map (remove_key "delivery_date")
          (filter (in_mtd_window feb_25_2024) (rows (typed scenario_rows))) /\
    List.length (rows mtd_df) = 1%nat.
Proof.
  destruct (mtd_sales_per_dealer (typed scenario_rows) feb_25_2024) as [mtd_df|e] eqn:E;
    [|vm_compute in E; discriminate E].
  exists mtd_df. split; [reflexivity|].
  destruct (mtd_keeps_rows_of_window (typed scenario_rows) mtd_df feb_25_2024 E)
    as [H _].
  split; [exact H|]. rewrite H. reflexivity.
Defined.

Lemma mtd_window_leaves_out_first_of_month_witness :
  past_midnight feb_25_2024 /\
  in_mtd_window feb_25_2024
    [("delivery_date"%string, VDatetime (midnight 2024 2 1))] = false.
Proof.
  assert (Hnow : past_midnight feb_25_2024) by (vm_compute; intuition discriminate).
  split; [exact Hnow|].
  exact (mtd_window_leaves_out_first_of_month feb_25_2024 1
           [("delivery_date"%string, VDatetime (midnight 2024 2 1))] Hnow eq_refl).
Defined.

Lemma truncate_text_length_and_idempotence_witness :
  0 <= 20 /\
  exists t,
    truncate_text (VStr "PV panel 450W monocrystalline") 20 = VStr t /\
    Z.of_nat (String.length t) = 23.
Proof.
  assert (Hpos : 0 <= 20) by lia.
  split; [exact Hpos|].
  exact (proj1 (proj2 (truncate_text_length_and_idempotence
                         (VStr "PV panel 450W monocrystalline") 20 Hpos))
               "PV panel 450W monocrystalline"%string eq_refl).
Defined.

Lemma report_needs_aggregated_columns_witness :
  In "dealer_name"%string aggregated_columns /\
  has_column (from_dict []) "dealer_name" = false /\
  exists e, generate_pdf_report (from_dict []) "MTD" = Raise e.
Proof.
  assert (Hin : In "dealer_name"%string aggregated_columns)
    by (simpl; intuition reflexivity).
  split; [exact Hin|]. split; [reflexivity|].
  exact (report_needs_aggregated_columns (from_dict []) "MTD" "dealer_name" Hin eq_refl).
Defined.

Lemma main_needs_kept_columns_witness :
  In "brand"%string columns_to_keep /\
  exists k,
    main [[("dealer_name"%string, VStr "Acme")]] feb_25_2024 feb_25_2024 =
      ([], Raise (KeyError k)).
Proof.
  assert (Hin : In "brand"%string columns_to_keep) by (simpl; intuition reflexivity).
  split; [exact Hin|].
  apply (main_needs_kept_columns [[("dealer_name"%string, VStr "Acme")]]
           feb_25_2024 feb_25_2024 "brand" Hin).
  intros d [<-|[]] [H|[]]. discriminate H.
Defined.

Lemma dealer_tables_follow_dealer_summary_witness :
  exists rep,
    generate_pdf_report (window_table scenario_rows) "YTD" = Ok rep /\
    map fst (dealer_tables rep) = map agg_key (dealer_summary_table rep) /\
    map fst (dealer_tables rep) = [KStr "Acme"].
Proof.
  destruct (generate_pdf_report (window_table scenario_rows) "YTD") as [rep|e] eqn:E;
    [|vm_compute in E; discriminate E].
  exists rep. split; [reflexivity|].
  destruct (dealer_tables_follow_dealer_summary (window_table scenario_rows) "YTD" rep E)
    as (H1 & H2 & _).
  split; [exact H1|]. rewrite H2. reflexivity.
Defined.

Lemma row_dict_lookup_witness :
  NoDup ["dealer_name"; "brand"]%string /\
  get "brand" (py_dict (combine ["dealer_name"; "brand"]%string
                                [VStr "Acme"; VStr "Helios"])) = VStr "Helios".
Proof.
  assert (Hnd : NoDup ["dealer_name"; "brand"]%string)
    by (repeat constructor; simpl; intuition discriminate).
  split; [exact Hnd|].
  exact (proj2 (proj2 (row_dict_lookup ["dealer_name"; "brand"]%string
                         [VStr "Acme"; VStr "Helios"]) Hnd)
               1%nat "brand"%string (VStr "Helios") eq_refl eq_refl).
Defined.


Lemma process_queries_skips_failed_queries_witness :
  (forall q w, exists w' t, read_text failing_queries q w = (w', inr t)) /\
  exists s' all_data,
    process_queries failing_queries tt ["query1.txt"; "query2.txt"]%string (tt, fresh) =
      (s', inr all_data) /\
    written (snd s') = [] /\
    all_data = [] /\
    slept (snd s') = 120.
Proof.
  assert (Hread : forall q w, exists w' t, read_text failing_queries q w = (w', inr t))
    by (intros q w; eexists; eexists; reflexivity).
  split; [exact Hread|].
  destruct (process_queries_skips_failed_queries unit unit string failing_queries tt
              ["query1.txt"; "query2.txt"]%string (tt, fresh) Hread)
    as (s' & all_data & Hp & Hw & _ & Hall).
  exists s', all_data. split; [exact Hp|]. split; [exact Hw|].
  apply Hall. intros q w. eexists. eexists. reflexivity.
Defined.

Lemma main_returns_without_credentials_witness :
  exists fx',
    main_program no_credentials_file feb_25_2024 feb_25_2024 (tt, fresh) =
      ((tt, fx'), inr tt) /\
    written fx' = [] /\
    slept fx' = 0.
Proof.
  exact (main_returns_without_credentials unit unit string no_credentials_file
           feb_25_2024 feb_25_2024 (tt, fresh) I).
Defined.

Lemma main_unbound_when_connection_refused_witness :
  (forall str w, exists w' e,
     pyodbc_connect unreachable_database str w = (w', inl e)) /\
  exists s',
    main_program unreachable_database feb_25_2024 feb_25_2024 (tt, fresh) =
      (s', inl (UnboundLocalError "all_data")) /\
    written (snd s') = [] /\
    slept (snd s') = 60.
Proof.
  assert (Hconn : forall str w, exists w' e,
             pyodbc_connect unreachable_database str w = (w', inl e))
    by (intros str w; eexists; eexists; reflexivity).
  split; [exact Hconn|].
  refine (main_unbound_when_connection_refused unit unit string unreachable_database
            _ _ _ _ _ _ _ ["query1.txt"; "notes.md"; "query2.txt"]%string
            (fun w => ex_intro _ w eq_refl) eq_refl eq_refl eq_refl eq_refl eq_refl
            eq_refl (fun w => ex_intro _ w eq_refl)
            feb_25_2024 feb_25_2024 (tt, fresh) Hconn).
Defined.

Lemma main_key_error_when_every_query_fails_witness :
  (forall c q w, exists w' e,
     cursor_fetch failing_queries c q w = (w', inl e)) /\
  exists s',
    main_program failing_queries feb_25_2024 feb_25_2024 (tt, fresh) =
      (s', inl (PyExn (KeyError "dealer_name"))) /\
    written (snd s') = [] /\
    slept (snd s') = 120.
Proof.
  assert (Hfetch : forall c q w, exists w' e,
             cursor_fetch failing_queries c q w = (w', inl e))
    by (intros c q w; eexists; eexists; reflexivity).
  split; [exact Hfetch|].
  refine (main_key_error_when_every_query_fails unit unit string failing_queries
            _ _ _ _ _ _ _ ["query1.txt"; "notes.md"; "query2.txt"]%string
            (fun w => ex_intro _ w eq_refl) eq_refl eq_refl eq_refl eq_refl eq_refl
            eq_refl (fun w => ex_intro _ w eq_refl)
            feb_25_2024 feb_25_2024 (tt, fresh)
            (fun str w => ex_intro _ w (ex_intro _ tt eq_refl))
            (fun q w => ex_intro _ w (ex_intro _ "SELECT 1"%string eq_refl))
            Hfetch
            (fun c w => ex_intro _ w eq_refl)).
Defined.
